(** * CareerCompass: the three-stage student planning pipeline

    A shallow embedding of [state/schema.py], [agents/domain_reasoning.py],
    [agents/recommendation.py] and [agents/coordinator.py].

    The agents are Python functions over dynamically typed values, so the
    embedding starts with the fragment of Python they use: JSON-born values,
    truthiness, [or], [dict.get], [len], indexing, slicing, [str.join] and
    the exceptions these raise.  A [str] is a Rocq [string] holding its UTF-8
    bytes; iteration and [len] go by code point.  Console output ([print]) is
    not modelled, but the arguments of a [print] are evaluated where they can
    raise. *)

From Stdlib Require Import String Ascii List ZArith Bool Arith Lia.
From Stdlib Require Import Floats.SpecFloat.
Import ListNotations.
Local Open Scope string_scope.

Set Implicit Arguments.

(** ** Python values *)

Module Py.

(** IEEE binary64, as the specification floats of the standard library. *)
Definition float := spec_float.

Definition float_ltb (a b : float) : bool := SFltb a b.

(** The float literals of the sources, as mantissa and exponent. *)
Definition f0_67 : float := S754_finite false 6034823500676465 (-53).
Definition f0_95 : float := S754_finite false 8556839292003942 (-53).
Definition f0_5 : float := S754_finite false 4503599627370496 (-53).
Definition f0_3 : float := S754_finite false 5404319552844595 (-54).
Definition f1_0 : float := S754_finite false 4503599627370496 (-52).
Definition f0_0 : float := S754_zero false.

(** What [json.loads] builds: [None], [bool], [int], [float], [str], [list]
    and [dict] with [str] keys, in insertion order. *)
#[warnings="-register-all"]
Inductive pyval : Type :=
| PNone
| PBool (b : bool)
| PInt (z : Z)
| PFloat (f : float)
| PStr (s : string)
| PList (l : list pyval)
| PDict (d : list (string * pyval)).

Inductive exn : Type :=
| AttributeError
| TypeError
| KeyError
| IndexError
| ValueError
| OverflowError
| RecursionError.

Inductive result (A : Type) : Type :=
| Ok (a : A)
| Raise (e : exn).

Arguments Ok {A} a.
Arguments Raise {A} e.

Definition rbind {A B} (r : result A) (k : A -> result B) : result B :=
  match r with
  | Ok a => k a
  | Raise e => Raise e
  end.

(** *** Strings *)

Definition nl : string := String "010"%char "".
Definition dq : string := String "034"%char "".

(** A UTF-8 continuation byte, 10xxxxxx. *)
Definition is_cont (c : ascii) : bool :=
  (128 <=? nat_of_ascii c)%nat && (nat_of_ascii c <? 192)%nat.

Definition starts_with_cont (s : string) : bool :=
  match s with
  | String c _ => is_cont c
  | EmptyString => false
  end.

(** The code points of a [str], each as a one-character [str]. *)
Fixpoint chars (s : string) : list string :=
  match s with
  | EmptyString => []
  | String c r =>
      if starts_with_cont r then
        match chars r with
        | h :: t => String c h :: t
        | [] => [String c ""]
        end
      else String c "" :: chars r
  end.

(** [needle in hay] on [str]. *)
Fixpoint starts_with (needle hay : string) : bool :=
  match needle, hay with
  | EmptyString, _ => true
  | String a n', String b h' => Ascii.eqb a b && starts_with n' h'
  | String _ _, EmptyString => false
  end.

Fixpoint contains (needle hay : string) : bool :=
  starts_with needle hay ||
  match hay with
  | EmptyString => false
  | String _ h' => contains needle h'
  end.

(** [k] occurs in [s]: what [contains] decides. *)
Definition substring_of (k s : string) : Prop := exists a b, s = a ++ k ++ b.

(** [str.lower] on the ASCII letters; bytes of other characters unchanged. *)
Definition ascii_lower_char (c : ascii) : ascii :=
  let n := nat_of_ascii c in
  if (65 <=? n)%nat && (n <=? 90)%nat then ascii_of_nat (n + 32) else c.

Fixpoint ascii_lower (s : string) : string :=
  match s with
  | EmptyString => EmptyString
  | String c r => String (ascii_lower_char c) (ascii_lower r)
  end.

Fixpoint is_ascii (s : string) : bool :=
  match s with
  | EmptyString => true
  | String c r => (nat_of_ascii c <? 128)%nat && is_ascii r
  end.

(** *** Dictionaries *)

Fixpoint dict_get (d : list (string * pyval)) (k : string) : option pyval :=
  match d with
  | [] => None
  | (k', v) :: d' => if String.eqb k' k then Some v else dict_get d' k
  end.

Definition dict_keys (d : list (string * pyval)) : list string := map fst d.

Definition has_key (d : list (string * pyval)) (k : string) : bool :=
  existsb (String.eqb k) (dict_keys d).

(** [set(ks).issubset(d.keys())] *)
Definition issubset (ks : list string) (d : list (string * pyval)) : bool :=
  forallb (has_key d) ks.

(** *** Operations on values *)

(** [bool(v)] *)
Definition truthy (v : pyval) : bool :=
  match v with
  | PNone => false
  | PBool b => b
  | PInt z => negb (Z.eqb z 0)
  | PFloat (S754_zero _) => false
  | PFloat _ => true
  | PStr EmptyString => false
  | PStr _ => true
  | PList [] => false
  | PList _ => true
  | PDict [] => false
  | PDict _ => true
  end.

(** [a or b] *)
Definition py_or (a b : pyval) : pyval := if truthy a then a else b.

(** [v == "literal"] *)
Definition eq_str (v : pyval) (s : string) : bool :=
  match v with
  | PStr t => String.eqb t s
  | _ => false
  end.

Definition isinstance_dict (v : pyval) : bool :=
  match v with PDict _ => true | _ => false end.

Definition dict_get_or (d : list (string * pyval)) (k : string) (default : pyval)
    : pyval :=
  match dict_get d k with
  | Some x => x
  | None => default
  end.

(** [v.get(k, default)]: only a [dict] has the method. *)
Definition get (v : pyval) (k : string) (default : pyval) : result pyval :=
  match v with
  | PDict d => Ok (dict_get_or d k default)
  | _ => Raise AttributeError
  end.

(** [len(v)] *)
Definition len (v : pyval) : result nat :=
  match v with
  | PList l => Ok (length l)
  | PStr s => Ok (length (chars s))
  | PDict d => Ok (length d)
  | _ => Raise TypeError
  end.

(** [v[i]] for a literal index [i >= 0]; a [dict] born from JSON has no
    [int] key. *)
Definition index (v : pyval) (i : nat) : result pyval :=
  match v with
  | PList l => match nth_error l i with Some x => Ok x | None => Raise IndexError end
  | PStr s => match nth_error (chars s) i with Some c => Ok (PStr c) | None => Raise IndexError end
  | PDict _ => Raise KeyError
  | _ => Raise TypeError
  end.

(** The items of [v[:n]], in iteration order.  Slicing a [dict] raises
    ([TypeError] up to CPython 3.11). *)
Definition slice_to (n : nat) (v : pyval) : result (list pyval) :=
  match v with
  | PList l => Ok (firstn n l)
  | PStr s => Ok (map PStr (firstn n (chars s)))
  | _ => Raise TypeError
  end.

(** The items of [iter(v)] when each is a [str], as [str.join] needs. *)
Fixpoint all_str (l : list pyval) : option (list string) :=
  match l with
  | [] => Some []
  | PStr s :: l' =>
      match all_str l' with
      | Some r => Some (s :: r)
      | None => None
      end
  | _ :: _ => None
  end.

(** [sep.join(v)] *)
Definition join (sep : string) (v : pyval) : result string :=
  match v with
  | PList l =>
      match all_str l with
      | Some ss => Ok (String.concat sep ss)
      | None => Raise TypeError
      end
  | PStr s => Ok (String.concat sep (chars s))
  | PDict d => Ok (String.concat sep (dict_keys d))
  | _ => Raise TypeError
  end.

(** [float(z)] of an [int]: the nearest binary64, ties to even, and
    [OverflowError] beyond the range. *)
Definition float_of_int (z : Z) : result float :=
  match binary_normalize 53 1024 z 0 false with
  | S754_infinity _ => Raise OverflowError
  | f => Ok f
  end.

(** [min(a, b)] on floats: [b] when [b < a], else [a]. *)
Definition min (a b : float) : float := if float_ltb b a then b else a.

(** What [json.loads] does with a text: it returns a value, raises
    [JSONDecodeError], or raises something else: [ValueError] for an integer
    literal beyond the digit limit, [RecursionError] for nesting beyond the
    recursion limit.  Only the second is what [except json.JSONDecodeError]
    catches. *)
Inductive loads_outcome : Type :=
| Loaded (v : pyval)
| JSONDecodeError
| LoadsRaises (e : exn).

(** The library functions whose full behaviour is left open: Unicode case
    mapping and whitespace, [str()] of a value that is not a [str],
    [float()] of a [str] ([ValueError] when it is no number), and
    [json.loads].  The one law is that [str.lower] is [ascii_lower] on
    ASCII text. *)
Class Builtins : Type := {
  str_lower : string -> string;
  str_strip : string -> string;
  str_of : pyval -> string;
  float_of_str : string -> result float;
  json_loads : string -> loads_outcome;
  str_lower_ascii : forall s, is_ascii s = true -> str_lower s = ascii_lower s
}.

Section WithBuiltins.
Context {B : Builtins}.

(** [v.lower()]: only a [str] has the method. *)
Definition lower (v : pyval) : result string :=
  match v with
  | PStr s => Ok (str_lower s)
  | _ => Raise AttributeError
  end.

(** [float(v)] *)
Definition to_float (v : pyval) : result float :=
  match v with
  | PFloat f => Ok f
  | PInt z => float_of_int z
  | PBool b => Ok (if b then f1_0 else f0_0)
  | PStr s => float_of_str s
  | _ => Raise TypeError
  end.

(** [f"{v}"] *)
Definition fmt (v : pyval) : string :=
  match v with
  | PStr s => s
  | _ => str_of v
  end.

End WithBuiltins.

(** *** The completion backend and the effect monad

    A call is the pair of its system and user prompt.  The backend answers
    from the calls made so far (most recent first) and the current one, so
    it may answer the same prompt differently the second time.  [M] threads
    the call log and propagates exceptions. *)

Definition call : Type := (string * string)%type.

Class Backend : Type := {
  complete : list call -> string -> string -> string
}.

Definition M (A : Type) : Type := list call -> result A * list call.

Definition ret {A} (a : A) : M A := fun h => (Ok a, h).

Definition bind {A B} (m : M A) (k : A -> M B) : M B :=
  fun h =>
    match m h with
    | (Ok a, h') => k a h'
    | (Raise e, h') => (Raise e, h')
    end.

Definition lift {A} (r : result A) : M A := fun h => (r, h).

(** [_llm.invoke([SystemMessage(sys), HumanMessage(usr)]).content] *)
Definition invoke {K : Backend} (sys usr : string) : M string :=
  fun h => (Ok (complete h sys usr), (sys, usr) :: h).

End Py.

Import Py.

Notation "x <- m ;; k" := (bind m (fun x => k))
  (at level 61, m at next level, right associativity).
Notation "x <~ r ;; k" := (bind (lift r) (fun x => k))
  (at level 61, r at next level, right associativity).

(** ** state/schema.py *)

Module schema.

(** [AssistantState].  [user_input] is validated when the state is built and
    no stage updates it.  The other fields are written through
    [model_copy(update=...)], which stores a value as it is, so each holds a
    Python value, [PNone] until its producer has run. *)
Record AssistantState : Type := {
  user_input : string;
  interpreted_goal : pyval;
  extracted_constraints : pyval;
  missing_information : pyval;
  confidence_score : pyval;
  decision_type : pyval;
  recommendations : pyval;
  final_response : pyval
}.

(** [AssistantState(user_input=query)] *)
Definition initial (query : string) : AssistantState :=
  {| user_input := query;
     interpreted_goal := PNone;
     extracted_constraints := PNone;
     missing_information := PNone;
     confidence_score := PNone;
     decision_type := PNone;
     recommendations := PNone;
     final_response := PNone |}.

(** The three [model_copy(update={...})] calls of the agents. *)
Definition update_domain (s : AssistantState)
    (goal constraints missing confidence dtype : pyval) : AssistantState :=
  {| user_input := user_input s;
     interpreted_goal := goal;
     extracted_constraints := constraints;
     missing_information := missing;
     confidence_score := confidence;
     decision_type := dtype;
     recommendations := recommendations s;
     final_response := final_response s |}.

Definition update_recommendations (s : AssistantState) (r : pyval)
    : AssistantState :=
  {| user_input := user_input s;
     interpreted_goal := interpreted_goal s;
     extracted_constraints := extracted_constraints s;
     missing_information := missing_information s;
     confidence_score := confidence_score s;
     decision_type := decision_type s;
     recommendations := r;
     final_response := final_response s |}.

Definition update_final_response (s : AssistantState) (r : pyval)
    : AssistantState :=
  {| user_input := user_input s;
     interpreted_goal := interpreted_goal s;
     extracted_constraints := extracted_constraints s;
     missing_information := missing_information s;
     confidence_score := confidence_score s;
     decision_type := decision_type s;
     recommendations := recommendations s;
     final_response := r |}.

(** The declared field types, [Optional[list[str]]] and the like, as
    validation at a node boundary checks them. *)
Definition opt_str (v : pyval) : bool :=
  match v with PNone | PStr _ => true | _ => false end.

Definition opt_list_str (v : pyval) : bool :=
  match v with
  | PNone => true
  | PList l => match all_str l with Some _ => true | None => false end
  | _ => false
  end.

Definition opt_float (v : pyval) : bool :=
  match v with PNone | PFloat _ => true | _ => false end.

Definition opt_dict (v : pyval) : bool :=
  match v with PNone | PDict _ => true | _ => false end.

Definition valid (s : AssistantState) : bool :=
  opt_str (interpreted_goal s) &&
  opt_list_str (extracted_constraints s) &&
  opt_list_str (missing_information s) &&
  opt_float (confidence_score s) &&
  opt_str (decision_type s) &&
  opt_dict (recommendations s) &&
  opt_str (final_response s).

End schema.

Import schema.

(** ** agents/domain_reasoning.py *)

Module domain_reasoning.

Definition _SYSTEM_PROMPT : string :=
"You are a domain reasoning engine for a Student Career Planning Assistant.

Your job is to parse the student's query and return a JSON object with exactly these keys:
  - interpreted_goal   : string — what the student is trying to decide or achieve
  - extracted_constraints : list of strings — preferences, limits, or context clues mentioned
  - missing_information   : list of strings — what additional info would sharpen the analysis
  - confidence_score      : float between 0.0 and 1.0

Confidence scoring guide:
  - 0.9–1.0 : query is specific, constraints are clear, goal is unambiguous
  - 0.7–0.89: goal is reasonably clear but some context is missing
  - 0.5–0.69: goal is vague or multiple interpretations are equally plausible
  - below 0.5: query is too ambiguous to reason about usefully

Return ONLY valid JSON. No prose. No markdown fences.
".

(** The six categories with their trigger phrases, in the order the
    dictionary is written and iterated. *)
Definition explicit_keywords : list (string * list string) :=
  [ ("time", ["limited time"; "short on time"; "urgent"; "deadline"; "soon"]);
    ("budget", ["limited budget"; "can't afford"; "cheap"; "free"]);
    ("experience", ["beginner"; "just starting"; "no experience"; "new to"]);
    ("priority", ["need a job"; "job priority"; "employment"; "urgent"]);
    ("interest", ["love"; "passion"; "interested in"; "enjoy"]);
    ("skill_gap", ["don't know"; "unfamiliar"; "never learned"]) ].

Definition context_keywords : list string :=
  [ "first year"; "second year"; "third year"; "fourth year";
    "freshman"; "sophomore"; "junior"; "senior";
    "year 1"; "year 2"; "year 3"; "year 4";
    "experience"; "worked with"; "built with"; "used"; "familiar with"; "studied";
    "python"; "javascript"; "java"; "c++"; "react"; "django"; "nodejs";
    "sql"; "databases"; "api"; "aws"; "cloud";
    "currently"; "doing"; "working on"; "taking"; "course" ].

Definition comparison_keywords : list string :=
  [" or "; "vs"; "which"; "better"; "compare"].

(** The fallback for a completion that is not JSON. *)
Definition parse_fallback : pyval :=
  PDict [ ("interpreted_goal", PStr "Unable to parse student goal.");
          ("extracted_constraints", PList []);
          ("missing_information", PList [PStr "Please restate your question clearly."]);
          ("confidence_score", PFloat f0_3) ].

(** [any(kw in text for kw in keywords)] *)
Definition any_in (keywords : list string) (text : string) : bool :=
  existsb (fun kw => contains kw text) keywords.

Section Agent.
Context {B : Builtins} {K : Backend}.

Definition _extract_explicit_constraints (user_input : string) : list string :=
  let user_lower := str_lower user_input in
  let found_constraints :=
    map fst
      (filter (fun entry : string * list string => any_in (snd entry) user_lower)
         explicit_keywords) in
  found_constraints.

Definition _has_background_context (user_input : string) : bool :=
  let user_lower := str_lower user_input in
  any_in context_keywords user_lower.

Definition _adjust_confidence_for_comparison
    (confidence : float) (decision_type : string) (user_input : string) : float :=
  if negb (String.eqb decision_type "comparison") then confidence
  else
    let has_context := _has_background_context user_input in
    if negb has_context then Py.min confidence f0_67
    else confidence.

(** The classification of the lower-cased goal,
    [any(k in interpreted_goal for k in comparison_keywords)]. *)
Definition classify (interpreted_goal : string) : string :=
  if any_in comparison_keywords interpreted_goal then "comparison"
  else "direct_path".

(** [try: json.loads(content) except JSONDecodeError: <fallback>] *)
Definition parse_or_fallback (content : string) : result pyval :=
  match json_loads content with
  | Loaded v => Ok v
  | JSONDecodeError => Ok parse_fallback
  | LoadsRaises e => Raise e
  end.

Definition run_domain_reasoning (state : AssistantState) : M AssistantState :=
  let active_input := user_input state in
  content <- invoke _SYSTEM_PROMPT active_input ;;
  parsed <~ parse_or_fallback content ;;
  goal0 <~ get parsed "interpreted_goal" (PStr "") ;;
  interpreted_goal <~ lower goal0 ;;
  let decision_type := classify interpreted_goal in
  let explicit_constraints := _extract_explicit_constraints active_input in
  conf0 <~ get parsed "confidence_score" (PFloat f0_5) ;;
  original_confidence <~ to_float conf0 ;;
  let adjusted_confidence :=
    _adjust_confidence_for_comparison original_confidence decision_type active_input in
  goal <~ get parsed "interpreted_goal" PNone ;;
  missing <~ get parsed "missing_information" (PList []) ;;
  ret (update_domain state
         goal
         (PList (map PStr explicit_constraints))
         missing
         (PFloat adjusted_confidence)
         (PStr decision_type)).

End Agent.

End domain_reasoning.

(** ** agents/recommendation.py *)

Module recommendation.

Definition _COMPARISON_SYSTEM_PROMPT : string :=
"You are a structured decision-support engine.

When a student compares two or more career paths, you do NOT choose one.
You design a 2-week structured exploration experiment.

STRICT RULES:
- Return ONLY valid JSON.
- No explanations.
- No markdown.
- No emojis.
- No prose outside JSON.
- exploration_plan must contain exactly two items (Week 1 and Week 2).

Return a JSON object with exactly these keys:
  - strategy              : string (must be " ++ dq ++
"exploration_experiment" ++ dq ++
")
  - exploration_plan      : list of 2 dicts with keys {week, focus, task}
  - decision_criteria     : list of 3 reflective evaluation questions
  - final_suggestion      : short decision guidance sentence
  - resources             : list of 2–4 learning resources
".

Definition _DIRECT_PATH_SYSTEM_PROMPT : string :=
"You are a career recommendation engine for a Student Planning Assistant.

You receive a structured interpretation of a student's goal and constraints.
Return a JSON object with exactly these keys:
  - primary_path        : string — the most suitable career direction given the context
  - secondary_path      : string — a viable alternative
  - reasoning           : string — 2–3 sentences explaining why primary_path fits best
  - immediate_next_steps: list of strings — 3 concrete actions the student can take this week
  - resources           : list of strings — 2–3 specific learning resources or links

Return ONLY valid JSON. No prose. No markdown fences.
".

Definition required_keys : list string :=
  ["strategy"; "exploration_plan"; "decision_criteria"; "final_suggestion"; "resources"].

Definition _comparison_fallback (goal : pyval) : pyval :=
  PDict
    [ ("strategy", PStr "exploration_experiment");
      ("exploration_plan",
        PList
          [ PDict [ ("week", PInt 1);
                    ("focus", PStr "Backend Development");
                    ("task", PStr "Build a small REST API using FastAPI with authentication and database integration.") ];
            PDict [ ("week", PInt 2);
                    ("focus", PStr "Machine Learning");
                    ("task", PStr "Build a small end-to-end ML classification project and expose it via a simple API.") ] ]);
      ("decision_criteria",
        PList
          [ PStr "Which work felt more engaging?";
            PStr "Which learning curve felt sustainable?";
            PStr "Which type of problem-solving excited you more?" ]);
      ("final_suggestion",
        PStr "Choose the path that maintains your long-term curiosity after hands-on exploration.");
      ("resources",
        PList
          [ PStr "FastAPI official documentation";
            PStr "Scikit-learn documentation";
            PStr "Andrew Ng Machine Learning Course" ]) ].

(** The object stored when the direct-path completion is not JSON. *)
Definition direct_parse_fallback : pyval :=
  PDict
    [ ("primary_path", PStr "Unable to parse recommendations.");
      ("secondary_path", PStr "N/A");
      ("reasoning", PStr "LLM returned unexpected format.");
      ("immediate_next_steps", PList []);
      ("resources", PList []) ].

(** [', '.join(v) if v else alt] *)
Definition joined_or (v : pyval) (alt : string) : result string :=
  if truthy v then join ", " v else Ok alt.

Section Agent.
Context {B : Builtins} {K : Backend}.

(** The user prompts, with the two joined lists already computed. *)
Definition comparison_block (goal : pyval) (c m : string) : string :=
  "Student goal: " ++ fmt goal ++ nl ++
  "Explicit constraints: " ++ c ++ nl ++
  "Missing information: " ++ m.

Definition direct_block (goal : pyval) (c m : string) : string :=
  "Student goal: " ++ fmt goal ++ nl ++
  "Constraints / preferences: " ++ c ++ nl ++
  "Note — information not available: " ++ m.

Definition _generate_comparison_recommendation
    (goal constraints missing : pyval) : M pyval :=
  c <~ joined_or constraints "none stated" ;;
  m <~ joined_or missing "none" ;;
  let context_block := comparison_block goal c m in
  content <- invoke _COMPARISON_SYSTEM_PROMPT context_block ;;
  match json_loads content with
  | LoadsRaises e => lift (Raise e)
  | JSONDecodeError => ret (_comparison_fallback goal)
  | Loaded recommendations =>
      match recommendations with
      | PDict d =>
          if negb (issubset required_keys d) then
            ret (_comparison_fallback goal)
          else
            plan <~ get recommendations "exploration_plan" PNone ;;
            if negb (truthy plan) then ret (_comparison_fallback goal)
            else ret recommendations
      | _ => ret (_comparison_fallback goal)
      end
  end.

Definition _generate_direct_recommendation
    (goal constraints missing : pyval) : M pyval :=
  c <~ joined_or constraints "none stated" ;;
  m <~ joined_or missing "none" ;;
  let context_block := direct_block goal c m in
  content <- invoke _DIRECT_PATH_SYSTEM_PROMPT context_block ;;
  recommendations <~
    match json_loads content with
    | Loaded v => Ok v
    | JSONDecodeError => Ok direct_parse_fallback
    | LoadsRaises e => Raise e
    end ;;
  ret recommendations.

(** In the direct-path branch the [print] that follows the generator
    evaluates [recommendations.get('primary_path')]. *)
Definition run_recommendation (state : AssistantState) : M AssistantState :=
  let goal := py_or (interpreted_goal state) (PStr (user_input state)) in
  let constraints := py_or (extracted_constraints state) (PList []) in
  let missing := py_or (missing_information state) (PList []) in
  let decision_type := py_or (decision_type state) (PStr "direct_path") in
  if eq_str decision_type "comparison" then
    recommendations <- _generate_comparison_recommendation goal constraints missing ;;
    ret (update_recommendations state recommendations)
  else
    recommendations <- _generate_direct_recommendation goal constraints missing ;;
    _ <~ get recommendations "primary_path" PNone ;;
    ret (update_recommendations state recommendations).

End Agent.

End recommendation.

(** ** agents/coordinator.py *)

Module coordinator.

Definition intro : string :=
  "This is a comparison decision. Instead of prematurely selecting one path, " ++
  "I recommend a structured two-week exploration plan:" ++ nl ++ nl.

Section Agent.
Context {B : Builtins} {K : Backend}.

(** The two-week block, from [plan[0]] and [plan[1]]. *)
Definition week_block (plan : pyval) : result string :=
  rbind (index plan 0) (fun p0 =>
  rbind (get p0 "focus" (PStr "Option A")) (fun focus0 =>
  rbind (index plan 0) (fun p0' =>
  rbind (get p0' "task" (PStr "Explore this path")) (fun task0 =>
  rbind (index plan 1) (fun p1 =>
  rbind (get p1 "focus" (PStr "Option B")) (fun focus1 =>
  rbind (index plan 1) (fun p1' =>
  rbind (get p1' "task" (PStr "Explore this path")) (fun task1 =>
  Ok ("**Week 1 — " ++ fmt focus0 ++ "**" ++ nl ++
      "- " ++ fmt task0 ++ nl ++ nl ++
      "**Week 2 — " ++ fmt focus1 ++ "**" ++ nl ++
      "- " ++ fmt task1 ++ nl ++ nl))))))))).

(** The loop over [criteria[:3]], one line per criterion. *)
Definition bullets (final : string) (items : list pyval) : string :=
  fold_left (fun final criterion => final ++ "- " ++ fmt criterion ++ nl) items final.

Definition compile_response (state : AssistantState) : M AssistantState :=
  let recs := py_or (recommendations state) (PDict []) in
  let goal := py_or (interpreted_goal state) (PStr (user_input state)) in
  let decision_type := py_or (decision_type state) (PStr "direct_path") in
  if eq_str decision_type "comparison" then
    plan <~ get recs "exploration_plan" (PList []) ;;
    criteria <~ get recs "decision_criteria" (PList []) ;;
    suggestion <~ get recs "final_suggestion" (PStr "") ;;
    let final := intro in
    n <~ len plan ;;
    final <~ (if (2 <=? n)%nat
              then rbind (week_block plan) (fun w => Ok (final ++ w))
              else Ok final) ;;
    let final := final ++ "After completing both phases, reflect on:" ++ nl in
    shown <~ slice_to 3 criteria ;;
    let final := bullets final shown in
    let final := if truthy suggestion then final ++ nl ++ fmt suggestion else final in
    let response_text := final in
    ret (update_final_response state (PStr response_text))
  else
    let prompt :=
      "You are a friendly student career advisor." ++ nl ++
      "The student's goal: " ++ fmt goal ++ nl ++
      "Structured recommendations:" ++ nl ++ fmt recs ++ nl ++ nl ++
      "Write a clear, encouraging, 3–5 sentence response that summarizes " ++
      "the top recommendation and one concrete next step. " ++
      "Address the student directly." in
    content <- invoke "You are a helpful student planning assistant." prompt ;;
    let response_text := str_strip content in
    ret (update_final_response state (PStr response_text)).

End Agent.

End coordinator.

(** ** Concrete runtimes for the examples

    A backend that answers the n-th call with the n-th text of a script, and
    builtins whose [json.loads] is a table from JSON text to the value it
    denotes, with a second table of the texts on which [json.loads] raises
    something other than [JSONDecodeError]; any other text is not JSON. *)

Module Examples.

Definition q (s : string) : string := dq ++ s ++ dq.

Definition scripted (answers : list string) : Backend :=
  {| complete := fun h _ _ => nth (List.length h) answers "" |}.

Definition loads_table (table : list (string * pyval)) (content : string)
    : option pyval :=
  match find (fun e => String.eqb (fst e) content) table with
  | Some e => Some (snd e)
  | None => None
  end.

(** {"interpreted_goal": "choosing between ML and backend",
     "extracted_constraints": [], "missing_information": [],
     "confidence_score": 0.95} *)
Definition choosing_text : string :=
  "{" ++ q "interpreted_goal" ++ ": " ++ q "choosing between ML and backend" ++ ", " ++
  q "extracted_constraints" ++ ": [], " ++
  q "missing_information" ++ ": [], " ++
  q "confidence_score" ++ ": 0.95}".

Definition choosing_dict : list (string * pyval) :=
  [ ("interpreted_goal", PStr "choosing between ML and backend");
    ("extracted_constraints", PList []);
    ("missing_information", PList []);
    ("confidence_score", PFloat f0_95) ].

Definition choosing_value : pyval := PDict choosing_dict.

(** {"interpreted_goal": "Decide whether ML or backend is the better focus",
     "extracted_constraints": ["likes math"],
     "missing_information": ["year of study"], "confidence_score": 0.95} *)
Definition versus_text : string :=
  "{" ++ q "interpreted_goal" ++ ": " ++
  q "Decide whether ML or backend is the better focus" ++ ", " ++
  q "extracted_constraints" ++ ": [" ++ q "likes math" ++ "], " ++
  q "missing_information" ++ ": [" ++ q "year of study" ++ "], " ++
  q "confidence_score" ++ ": 0.95}".

Definition versus_dict : list (string * pyval) :=
  [ ("interpreted_goal", PStr "Decide whether ML or backend is the better focus");
    ("extracted_constraints", PList [PStr "likes math"]);
    ("missing_information", PList [PStr "year of study"]);
    ("confidence_score", PFloat f0_95) ].

Definition versus_value : pyval := PDict versus_dict.

(** A comparison plan with the five keys whose two entries are strings:
    {"strategy": "exploration_experiment",
     "exploration_plan": ["Week 1: backend", "Week 2: ML"],
     "decision_criteria": ["Which did you enjoy?"],
     "final_suggestion": "Pick one.", "resources": ["docs"]} *)
Definition flat_plan_text : string :=
  "{" ++ q "strategy" ++ ": " ++ q "exploration_experiment" ++ ", " ++
  q "exploration_plan" ++ ": [" ++ q "Week 1: backend" ++ ", " ++ q "Week 2: ML" ++ "], " ++
  q "decision_criteria" ++ ": [" ++ q "Which did you enjoy?" ++ "], " ++
  q "final_suggestion" ++ ": " ++ q "Pick one." ++ ", " ++
  q "resources" ++ ": [" ++ q "docs" ++ "]}".

Definition flat_plan_value : pyval :=
  PDict [ ("strategy", PStr "exploration_experiment");
          ("exploration_plan", PList [PStr "Week 1: backend"; PStr "Week 2: ML"]);
          ("decision_criteria", PList [PStr "Which did you enjoy?"]);
          ("final_suggestion", PStr "Pick one.");
          ("resources", PList [PStr "docs"]) ].

(** A well-shaped plan without [focus] and [task] in its entries:
    {"strategy": "exploration_experiment",
     "exploration_plan": [{"week": 1}, {"week": 2}],
     "decision_criteria": ["a", "b", "c", "d"],
     "final_suggestion": "Pick one.", "resources": ["docs"]} *)
Definition bare_plan_text : string :=
  "{" ++ q "strategy" ++ ": " ++ q "exploration_experiment" ++ ", " ++
  q "exploration_plan" ++ ": [{" ++ q "week" ++ ": 1}, {" ++ q "week" ++ ": 2}], " ++
  q "decision_criteria" ++ ": [" ++ q "a" ++ ", " ++ q "b" ++ ", " ++ q "c" ++ ", " ++ q "d" ++ "], " ++
  q "final_suggestion" ++ ": " ++ q "Pick one." ++ ", " ++
  q "resources" ++ ": [" ++ q "docs" ++ "]}".

Definition bare_plan_value : pyval :=
  PDict [ ("strategy", PStr "exploration_experiment");
          ("exploration_plan", PList [PDict [("week", PInt 1)]; PDict [("week", PInt 2)]]);
          ("decision_criteria", PList [PStr "a"; PStr "b"; PStr "c"; PStr "d"]);
          ("final_suggestion", PStr "Pick one.");
          ("resources", PList [PStr "docs"]) ].

(** [1, 2] *)
Definition array_text : string := "[1, 2]".
Definition array_value : pyval := PList [PInt 1; PInt 2].

(** {"primary_path": "Backend engineering"} *)
Definition partial_text : string :=
  "{" ++ q "primary_path" ++ ": " ++ q "Backend engineering" ++ "}".
Definition partial_value : pyval :=
  PDict [("primary_path", PStr "Backend engineering")].

Definition prose_text : string := "Sure! Here is my plan.".

(** A plan that is the number 7:
    {"strategy": "exploration_experiment", "exploration_plan": 7,
     "decision_criteria": ["Which did you enjoy?"],
     "final_suggestion": "Pick one.", "resources": ["docs"]} *)
Definition seven_plan_text : string :=
  "{" ++ q "strategy" ++ ": " ++ q "exploration_experiment" ++ ", " ++
  q "exploration_plan" ++ ": 7, " ++
  q "decision_criteria" ++ ": [" ++ q "Which did you enjoy?" ++ "], " ++
  q "final_suggestion" ++ ": " ++ q "Pick one." ++ ", " ++
  q "resources" ++ ": [" ++ q "docs" ++ "]}".

Definition seven_plan_value : pyval :=
  PDict [ ("strategy", PStr "exploration_experiment");
          ("exploration_plan", PInt 7);
          ("decision_criteria", PList [PStr "Which did you enjoy?"]);
          ("final_suggestion", PStr "Pick one.");
          ("resources", PList [PStr "docs"]) ].

Definition json_table : list (string * pyval) :=
  [ (choosing_text, choosing_value);
    (versus_text, versus_value);
    (flat_plan_text, flat_plan_value);
    (bare_plan_text, bare_plan_value);
    (seven_plan_text, seven_plan_value);
    (array_text, array_value);
    (partial_text, partial_value) ].

(** ["[" * 2000]: the parser recurses past the limit before it can report
    the missing brackets. *)
Fixpoint repeat_text (s : string) (n : nat) : string :=
  match n with
  | O => ""
  | S n' => s ++ repeat_text s n'
  end.

Definition deep_text : string := repeat_text "[" 2000.

(** ["1" * 5000]: an integer literal over the limit of 4300 digits. *)
Definition digits_text : string := repeat_text "1" 5000.

Definition raising_table : list (string * exn) :=
  [ (deep_text, RecursionError); (digits_text, ValueError) ].

Definition loads (content : string) : loads_outcome :=
  match loads_table json_table content with
  | Some v => Loaded v
  | None =>
      match find (fun e => String.eqb (fst e) content) raising_table with
      | Some e => LoadsRaises (snd e)
      | None => JSONDecodeError
      end
  end.

(** [str.lower] is exact on ASCII text; [str.strip] is exact on text without
    surrounding white space, which is all the examples pass to it; [str()]
    of a value that is not a [str] only reaches prompts, which the scripted
    backend does not read; [float()] of a [str] is not reached. *)
Definition builtins : Builtins :=
  {| str_lower := ascii_lower;
     str_strip := fun s => s;
     str_of := fun _ => "<value>";
     float_of_str := fun _ => Raise ValueError;
     json_loads := loads;
     str_lower_ascii := fun s _ => eq_refl |}.

Definition ml_or_backend : string := "Should I do ML or backend development?".

Definition beginner_query : string := "I'm a beginner and I have limited time".

(** The states of the runs below. *)
Definition direct_state : AssistantState :=
  update_domain (initial ml_or_backend)
    (PStr "choosing between ML and backend") (PList []) (PList [])
    (PFloat f0_95) (PStr "direct_path").

Definition comparison_state : AssistantState :=
  update_domain (initial ml_or_backend)
    (PStr "Decide whether ML or backend is the better focus")
    (PList []) (PList [PStr "year of study"])
    (PFloat f0_67) (PStr "comparison").

Definition flat_state : AssistantState :=
  update_recommendations comparison_state flat_plan_value.

Definition bare_state : AssistantState :=
  update_recommendations comparison_state bare_plan_value.

Definition bare_response : string :=
  "This is a comparison decision. Instead of prematurely selecting one path, I recommend a structured two-week exploration plan:" ++ nl ++ nl ++
  "**Week 1 — Option A**" ++ nl ++
  "- Explore this path" ++ nl ++ nl ++
  "**Week 2 — Option B**" ++ nl ++
  "- Explore this path" ++ nl ++ nl ++
  "After completing both phases, reflect on:" ++ nl ++
  "- a" ++ nl ++ "- b" ++ nl ++ "- c" ++ nl ++
  nl ++ "Pick one.".

Definition bare_final : AssistantState :=
  update_final_response bare_state (PStr bare_response).

(** The call log after the domain stage. *)
Definition log1 : list call :=
  [(domain_reasoning._SYSTEM_PROMPT, ml_or_backend)].

End Examples.

(** ** main.py *)

Module main.

Definition default_query : string :=
  "I'm a second-year CS student unsure whether to focus on ML or backend development. What should I do?".

Section Cli.
Context {B : Builtins}.

(** The query [main] hands to [run_assistant].  [arg] is [args.query], a
    [str] or [None]; [typed] is the line [input] returns, which is read only
    when [args.query] is [None] or empty. *)
Definition query (arg : option string) (typed : string) : string :=
  let args_query := match arg with Some q => PStr q | None => PNone end in
  if truthy args_query then
    match arg with Some q => q | None => "" end
  else
    let query := str_strip typed in
    if negb (truthy (PStr query)) then default_query else query.

End Cli.

End main.

(** ** Further states for the examples *)

Module MoreExamples.
Import Examples.

(** A plan with a third week and with exactly three criteria. *)
Definition long_plan_value : pyval :=
  PDict [ ("strategy", PStr "exploration_experiment");
          ("exploration_plan",
            PList [PDict [("week", PInt 1)]; PDict [("week", PInt 2)];
                   PDict [("week", PInt 3); ("focus", PStr "Data engineering")]]);
          ("decision_criteria", PList [PStr "a"; PStr "b"; PStr "c"]);
          ("final_suggestion", PStr "Pick one.");
          ("resources", PList [PStr "docs"]) ].

Definition long_state : AssistantState :=
  update_recommendations comparison_state long_plan_value.

(** Criteria given as one string, a plan of one entry, no suggestion. *)
Definition string_criteria_dict : list (string * pyval) :=
  [ ("exploration_plan", PList [PDict [("week", PInt 1)]]);
    ("decision_criteria", PStr "fun?") ].

Definition string_criteria_state : AssistantState :=
  update_recommendations comparison_state (PDict string_criteria_dict).

(** A state whose [missing_information] is the number 5. *)
Definition number_missing_state : AssistantState :=
  update_domain (initial ml_or_backend)
    (PStr "Decide whether ML or backend is the better focus")
    (PList []) (PInt 5) (PFloat f0_67) (PStr "comparison").

Definition fallback_state : AssistantState :=
  update_recommendations comparison_state
    (recommendation._comparison_fallback
       (PStr "Decide whether ML or backend is the better focus")).

Definition fallback_response : string :=
  "This is a comparison decision. Instead of prematurely selecting one path, I recommend a structured two-week exploration plan:" ++ nl ++ nl ++
  "**Week 1 — Backend Development**" ++ nl ++
  "- Build a small REST API using FastAPI with authentication and database integration." ++ nl ++ nl ++
  "**Week 2 — Machine Learning**" ++ nl ++
  "- Build a small end-to-end ML classification project and expose it via a simple API." ++ nl ++ nl ++
  "After completing both phases, reflect on:" ++ nl ++
  "- Which work felt more engaging?" ++ nl ++
  "- Which learning curve felt sustainable?" ++ nl ++
  "- Which type of problem-solving excited you more?" ++ nl ++
  nl ++ "Choose the path that maintains your long-term curiosity after hands-on exploration.".

(** The call log after the recommendation stage on [comparison_state]. *)
Definition log2 : list call :=
  (recommendation._COMPARISON_SYSTEM_PROMPT,
   "Student goal: Decide whether ML or backend is the better focus" ++ nl ++
   "Explicit constraints: none stated" ++ nl ++
   "Missing information: year of study") :: log1.

End MoreExamples.

(** * Verification *)

(** ** Substring search *)

Lemma starts_with_spec (k s : string) :
  starts_with k s = true <-> exists b, s = k ++ b.
Proof.
  revert s. induction k as [|a k IH]; intros s; simpl.
  - split; [intros _; exists s; reflexivity | reflexivity].
  - destruct s as [|c s].
    + split; [discriminate | intros [b Hb]; discriminate].
    + rewrite andb_true_iff, Ascii.eqb_eq, IH. split.
      * intros [-> [b ->]]. exists b. reflexivity.
      * intros [b Hb]. injection Hb as -> ->. split; [reflexivity | exists b; reflexivity].
Qed.

Lemma contains_spec (k s : string) :
  contains k s = true <-> substring_of k s.
Proof.
  unfold substring_of. induction s as [|c s IH].
  - simpl. rewrite orb_false_r, starts_with_spec. split.
    + intros [b Hb]. exists "", b. exact Hb.
    + intros [a [b Hb]]. destruct a; simpl in Hb.
      * exists b. exact Hb.
      * discriminate.
  - cbn [contains]. rewrite orb_true_iff, starts_with_spec, IH. split.
    + intros [[b Hb] | [a [b Hb]]].
      * exists "", b. exact Hb.
      * exists (String c a), b. simpl. rewrite Hb. reflexivity.
    + intros [a [b Hb]]. destruct a as [|c' a]; simpl in Hb.
      * left. exists b. exact Hb.
      * right. injection Hb as _ Hb. exists a, b. exact Hb.
Qed.

Lemma any_in_spec (keywords : list string) (text : string) :
  domain_reasoning.any_in keywords text = true <->
  exists kw, In kw keywords /\ substring_of kw text.
Proof.
  unfold domain_reasoning.any_in. rewrite existsb_exists.
  split; intros [kw [Hin Hk]]; exists kw; split; trivial; apply contains_spec; exact Hk.
Qed.

Lemma any_in_false (keywords : list string) (text : string) :
  domain_reasoning.any_in keywords text = false <->
  ~ exists kw, In kw keywords /\ substring_of kw text.
Proof.
  rewrite <- any_in_spec. destruct (domain_reasoning.any_in keywords text); split;
    congruence.
Qed.

(** ** The domain reasoning stage *)

Section DomainReasoning.
Import domain_reasoning.
Context {B : Builtins} {K : Backend}.

(** When the parsed completion is a mapping whose goal is a string and
    whose confidence converts to a float, the stage returns, after one
    backend call, the state below. *)
Lemma run_domain_reasoning_ok (s : AssistantState) (h : list call)
    (d : list (string * pyval)) (g : string) (c : float) :
  parse_or_fallback (complete h _SYSTEM_PROMPT (user_input s)) = Ok (PDict d) ->
  get (PDict d) "interpreted_goal" (PStr "") = Ok (PStr g) ->
  rbind (get (PDict d) "confidence_score" (PFloat f0_5)) to_float = Ok c ->
  run_domain_reasoning s h =
    (Ok (update_domain s
           (dict_get_or d "interpreted_goal" PNone)
           (PList (map PStr (_extract_explicit_constraints (user_input s))))
           (dict_get_or d "missing_information" (PList []))
           (PFloat (_adjust_confidence_for_comparison c
                      (classify (str_lower g)) (user_input s)))
           (PStr (classify (str_lower g)))),
     (_SYSTEM_PROMPT, user_input s) :: h).
Proof.
  intros Hp Hg Hc.
  unfold run_domain_reasoning, bind, lift, invoke, ret.
  rewrite Hp, Hg. cbn [lower].
  destruct (get (PDict d) "confidence_score" (PFloat f0_5)) as [c0|e] eqn:Hc0;
    [|discriminate].
  cbn [rbind] in Hc. rewrite Hc. reflexivity.
Qed.

Lemma adjust_confidence_spec (c : float) (dt u : string) :
  _adjust_confidence_for_comparison c dt u =
    if String.eqb dt "comparison" && negb (any_in context_keywords (str_lower u))
    then Py.min c f0_67 else c.
Proof.
  unfold _adjust_confidence_for_comparison, _has_background_context.
  destruct (String.eqb dt "comparison"); simpl; [|reflexivity].
  destruct (any_in context_keywords (str_lower u)); reflexivity.
Qed.

(** The cap is never exceeded by a capped score. *)
Lemma min_cap_not_above (c : float) : float_ltb f0_67 (Py.min c f0_67) = false.
Proof.
  unfold Py.min. destruct (float_ltb f0_67 c) eqn:E; [reflexivity | exact E].
Qed.

Lemma NoDup_map_filter {A C : Type} (f : A -> C) (p : A -> bool) (l : list A) :
  NoDup (map f l) -> NoDup (map f (filter p l)).
Proof.
  induction l as [|a l IH]; simpl; intros Hnd; [constructor|].
  inversion Hnd as [|? ? Hnotin Hnd']; subst.
  destruct (p a); simpl; [constructor|]; auto.
  intros Hin. apply Hnotin. apply in_map_iff in Hin. destruct Hin as [x [Hx Hin]].
  apply filter_In in Hin. apply in_map_iff. exists x. tauto.
Qed.

Lemma explicit_categories_distinct : NoDup (map fst explicit_keywords).
Proof.
  simpl. repeat constructor; simpl; intuition discriminate.
Qed.

Lemma extract_NoDup (u : string) : NoDup (_extract_explicit_constraints u).
Proof.
  unfold _extract_explicit_constraints.
  apply NoDup_map_filter. exact explicit_categories_distinct.
Qed.

Lemma extract_In (u category : string) :
  In category (_extract_explicit_constraints u) <->
  exists phrases, In (category, phrases) explicit_keywords /\
    exists kw, In kw phrases /\ substring_of kw (str_lower u).
Proof.
  unfold _extract_explicit_constraints. rewrite in_map_iff. split.
  - intros [[cat phrases] [Hc Hin]]. simpl in Hc. subst cat.
    apply filter_In in Hin. destruct Hin as [Hin Hany]. simpl in Hany.
    exists phrases. split; [exact Hin | apply any_in_spec; exact Hany].
  - intros [phrases [Hin Hany]]. exists (category, phrases). split; [reflexivity|].
    apply filter_In. split; [exact Hin | apply any_in_spec; exact Hany].
Qed.

(** C2: for every parsed interpreted goal string, the stage returns with
    [decision_type] "comparison" exactly when the lower-cased goal contains
    one of " or ", "vs", "which", "better", "compare", and "direct_path"
    exactly when it contains none; the test reads the interpreted goal and
    not [user_input]. *)
Theorem decision_type_classification (s : AssistantState) (h : list call)
    (d : list (string * pyval)) (g : string) (c : float) :
  parse_or_fallback (complete h _SYSTEM_PROMPT (user_input s)) = Ok (PDict d) ->
  get (PDict d) "interpreted_goal" (PStr "") = Ok (PStr g) ->
  rbind (get (PDict d) "confidence_score" (PFloat f0_5)) to_float = Ok c ->
  exists s',
    run_domain_reasoning s h = (Ok s', (_SYSTEM_PROMPT, user_input s) :: h) /\
    (decision_type s' = PStr "comparison" <->
       exists kw, In kw [" or "; "vs"; "which"; "better"; "compare"] /\
                  substring_of kw (str_lower g)) /\
    (decision_type s' = PStr "direct_path" <->
       ~ exists kw, In kw [" or "; "vs"; "which"; "better"; "compare"] /\
                    substring_of kw (str_lower g)).
Proof.
  intros Hp Hg Hc. eexists. split.
  - apply (run_domain_reasoning_ok s h Hp Hg Hc).
  - cbn [decision_type update_domain]. unfold classify.
    change [" or "; "vs"; "which"; "better"; "compare"] with comparison_keywords.
    rewrite <- any_in_false, <- any_in_spec.
    destruct (any_in comparison_keywords (str_lower g)); split; split;
      intros H; try reflexivity; try discriminate; congruence.
Qed.

(** C3, as amended: for [user_input] "Should I do ML or backend
    development?" and a completion that is a JSON object whose
    [interpreted_goal] is "choosing between ML and backend", the stage sets
    [decision_type] to "direct_path": the lower-cased goal holds none of the
    five substrings, and the " or " of [user_input] is not looked at. *)
Theorem choosing_goal_is_direct_path (s : AssistantState) (h : list call)
    (d : list (string * pyval)) (c : float) :
  user_input s = "Should I do ML or backend development?" ->
  json_loads (complete h _SYSTEM_PROMPT (user_input s)) = Loaded (PDict d) ->
  dict_get d "interpreted_goal" = Some (PStr "choosing between ML and backend") ->
  rbind (get (PDict d) "confidence_score" (PFloat f0_5)) to_float = Ok c ->
  exists s',
    run_domain_reasoning s h = (Ok s', (_SYSTEM_PROMPT, user_input s) :: h) /\
    decision_type s' = PStr "direct_path".
Proof.
  intros _ Hj Hg Hc. eexists. split.
  - apply (@run_domain_reasoning_ok s h d "choosing between ML and backend" c).
    + unfold parse_or_fallback. rewrite Hj. reflexivity.
    + simpl. unfold dict_get_or. rewrite Hg. reflexivity.
    + exact Hc.
  - cbn [decision_type update_domain]. unfold classify.
    rewrite str_lower_ascii by reflexivity. reflexivity.
Qed.

(** C4: with [c] the confidence the completion reports, the stored
    [confidence_score] is [min(c, 0.67)] when [decision_type] is
    "comparison" and the lower-cased [user_input] contains no
    background-context keyword, and [c] itself when [decision_type] is
    "direct_path" or a keyword is present; 0.95 without keywords is stored
    as 0.67. *)
Theorem confidence_adjustment (s : AssistantState) (h : list call)
    (d : list (string * pyval)) (g : string) (c : float) :
  parse_or_fallback (complete h _SYSTEM_PROMPT (user_input s)) = Ok (PDict d) ->
  get (PDict d) "interpreted_goal" (PStr "") = Ok (PStr g) ->
  rbind (get (PDict d) "confidence_score" (PFloat f0_5)) to_float = Ok c ->
  exists s',
    run_domain_reasoning s h = (Ok s', (_SYSTEM_PROMPT, user_input s) :: h) /\
    let has_context :=
      exists kw, In kw context_keywords /\ substring_of kw (str_lower (user_input s)) in
    (decision_type s' = PStr "comparison" -> ~ has_context ->
       confidence_score s' = PFloat (Py.min c f0_67)) /\
    (decision_type s' = PStr "direct_path" -> confidence_score s' = PFloat c) /\
    (has_context -> confidence_score s' = PFloat c) /\
    (decision_type s' = PStr "comparison" -> ~ has_context -> c = f0_95 ->
       confidence_score s' = PFloat f0_67).
Proof.
  intros Hp Hg Hc. eexists. split.
  - apply (run_domain_reasoning_ok s h Hp Hg Hc).
  - cbn [decision_type confidence_score update_domain]. cbv zeta.
    rewrite adjust_confidence_spec. unfold classify.
    rewrite <- any_in_false, <- any_in_spec.
    destruct (any_in comparison_keywords (str_lower g));
      destruct (any_in context_keywords (str_lower (user_input s)));
      simpl; repeat split; intros; subst; try reflexivity; try discriminate;
      congruence.
Qed.

(** C5: the stored [extracted_constraints] is the scan of the lower-cased
    [user_input] against the six categories, each listed at most once and
    exactly when one of its phrases occurs, whatever constraint list the
    completion carried; for "I'm a beginner and I have limited time" it is
    "time" and "experience" and nothing else. *)
Theorem constraints_from_user_input (s : AssistantState) (h : list call)
    (d : list (string * pyval)) (g : string) (c : float) :
  parse_or_fallback (complete h _SYSTEM_PROMPT (user_input s)) = Ok (PDict d) ->
  get (PDict d) "interpreted_goal" (PStr "") = Ok (PStr g) ->
  rbind (get (PDict d) "confidence_score" (PFloat f0_5)) to_float = Ok c ->
  exists s' found,
    run_domain_reasoning s h = (Ok s', (_SYSTEM_PROMPT, user_input s) :: h) /\
    extracted_constraints s' = PList (map PStr found) /\
    found = _extract_explicit_constraints (user_input s) /\
    NoDup found /\
    (forall category, In category found <->
       exists phrases, In (category, phrases) explicit_keywords /\
         exists kw, In kw phrases /\ substring_of kw (str_lower (user_input s))) /\
    (forall category, In category found ->
       In category ["time"; "budget"; "experience"; "priority"; "interest"; "skill_gap"]) /\
    (user_input s = "I'm a beginner and I have limited time" ->
       found = ["time"; "experience"]).
Proof.
  intros Hp Hg Hc. eexists. exists (_extract_explicit_constraints (user_input s)).
  split; [apply (run_domain_reasoning_ok s h Hp Hg Hc)|].
  split; [reflexivity|]. split; [reflexivity|].
  split; [apply extract_NoDup|]. split; [apply extract_In|]. split.
  - intros category Hin. apply extract_In in Hin.
    destruct Hin as [phrases [Hin _]].
    apply (in_map fst) in Hin. exact Hin.
  - intros ->. unfold _extract_explicit_constraints.
    rewrite str_lower_ascii by reflexivity. reflexivity.
Qed.

End DomainReasoning.

(** ** The recommendation stage *)

(** Both later stages test [(state.decision_type or "direct_path") ==
    "comparison"], which holds for the string "comparison" alone. *)
Lemma comparison_test (dt : pyval) :
  eq_str (py_or dt (PStr "direct_path")) "comparison" = true <->
  dt = PStr "comparison".
Proof.
  split.
  - unfold py_or. destruct (truthy dt) eqn:Ht.
    + destruct dt; simpl; try discriminate.
      intros H. apply String.eqb_eq in H. subst. reflexivity.
    + simpl. discriminate.
  - intros ->. reflexivity.
Qed.

Lemma comparison_test_false (dt : pyval) :
  eq_str (py_or dt (PStr "direct_path")) "comparison" = false <->
  dt <> PStr "comparison".
Proof.
  rewrite <- comparison_test.
  destruct (eq_str (py_or dt (PStr "direct_path")) "comparison"); split; congruence.
Qed.

Lemma joined_or_valid (v : pyval) (alt : string) :
  opt_list_str v = true ->
  exists t, recommendation.joined_or (py_or v (PList [])) alt = Ok t.
Proof.
  unfold recommendation.joined_or, py_or. destruct v; simpl; try discriminate.
  - intros _. exists alt. reflexivity.
  - destruct l as [|x l]; [intros _; exists alt; reflexivity|].
    cbn [truthy join]. destruct (all_str (x :: l)); [|discriminate].
    intros _. eexists. reflexivity.
Qed.

Lemma has_key_get (d : list (string * pyval)) (k : string) :
  has_key d k = true <-> exists v, dict_get d k = Some v.
Proof.
  unfold has_key, dict_keys. induction d as [|[k' v] d IH]; simpl.
  - split; [discriminate | intros [v Hv]; discriminate].
  - rewrite String.eqb_sym. destruct (String.eqb k' k); simpl.
    + split; [intros _; exists v; reflexivity | reflexivity].
    + exact IH.
Qed.

Lemma issubset_spec (ks : list string) (d : list (string * pyval)) :
  issubset ks d = true <-> forall k, In k ks -> has_key d k = true.
Proof. unfold issubset. apply forallb_forall. Qed.

Lemma issubset_false (ks : list string) (d : list (string * pyval)) :
  issubset ks d = false <-> exists k, In k ks /\ has_key d k = false.
Proof.
  unfold issubset. induction ks as [|k ks IH]; simpl.
  - split; [discriminate | intros [k [[] _]]].
  - rewrite andb_false_iff, IH. split.
    + intros [Hk | [k' [Hin Hk']]]; [exists k | exists k']; auto.
    + intros [k' [[-> | Hin] Hk']]; [left | right; exists k']; auto.
Qed.

Lemma all_str_map_PStr (l : list string) : all_str (map PStr l) = Some l.
Proof.
  induction l as [|x l IH]; simpl; [reflexivity | rewrite IH; reflexivity].
Qed.

(** [', '.join(l) if l else alt] on a list of strings. *)
Lemma joined_or_list (l : list string) (alt : string) :
  recommendation.joined_or (PList (map PStr l)) alt =
    Ok (match l with [] => alt | _ => String.concat ", " l end).
Proof.
  destruct l as [|x l]; [reflexivity|].
  unfold recommendation.joined_or. cbn [map truthy join all_str].
  rewrite (all_str_map_PStr l). reflexivity.
Qed.

Section Recommendation.
Import recommendation.
Context {B : Builtins} {K : Backend}.

(** What the comparison generator does with a parse outcome. *)
Let checked (goal : pyval) (out : loads_outcome) : result pyval :=
  match out with
  | Loaded (PDict d) =>
      Ok (if issubset required_keys d && truthy (dict_get_or d "exploration_plan" PNone)
          then PDict d else _comparison_fallback goal)
  | Loaded _ => Ok (_comparison_fallback goal)
  | JSONDecodeError => Ok (_comparison_fallback goal)
  | LoadsRaises e => Raise e
  end.

(** What the direct-path generator does with a parse outcome. *)
Let parsed_or_degraded (out : loads_outcome) : result pyval :=
  match out with
  | Loaded v => Ok v
  | JSONDecodeError => Ok direct_parse_fallback
  | LoadsRaises e => Raise e
  end.

Lemma generate_comparison_run (goal cs ms : pyval) (h : list call) (c m : string) :
  joined_or cs "none stated" = Ok c ->
  joined_or ms "none" = Ok m ->
  _generate_comparison_recommendation goal cs ms h =
    (checked goal
       (json_loads (complete h _COMPARISON_SYSTEM_PROMPT (comparison_block goal c m))),
     (_COMPARISON_SYSTEM_PROMPT, comparison_block goal c m) :: h).
Proof.
  intros Hc Hm.
  unfold _generate_comparison_recommendation, bind, lift, invoke, ret.
  rewrite Hc, Hm. subst checked. cbv beta.
  destruct (json_loads _) as [[| | | | |l|d]| |e]; try reflexivity.
  cbn [get].
  destruct (issubset required_keys d); simpl; [|reflexivity].
  destruct (truthy (dict_get_or d "exploration_plan" PNone)); reflexivity.
Qed.

Lemma generate_direct_run (goal cs ms : pyval) (h : list call) (c m : string) :
  joined_or cs "none stated" = Ok c ->
  joined_or ms "none" = Ok m ->
  _generate_direct_recommendation goal cs ms h =
    (parsed_or_degraded
       (json_loads (complete h _DIRECT_PATH_SYSTEM_PROMPT (direct_block goal c m))),
     (_DIRECT_PATH_SYSTEM_PROMPT, direct_block goal c m) :: h).
Proof.
  intros Hc Hm.
  unfold _generate_direct_recommendation, bind, lift, invoke, ret.
  rewrite Hc, Hm. subst parsed_or_degraded. cbv beta.
  destruct (json_loads _); reflexivity.
Qed.

Lemma checked_valid (goal : pyval) (out : loads_outcome) (r : pyval) :
  checked goal out = Ok r ->
  exists d, r = PDict d /\
    issubset required_keys d = true /\
    truthy (dict_get_or d "exploration_plan" PNone) = true.
Proof.
  subst checked. cbv beta.
  assert (Hfb : forall r', Ok (_comparison_fallback goal) = Ok r' ->
            exists d, r' = PDict d /\
              issubset required_keys d = true /\
              truthy (dict_get_or d "exploration_plan" PNone) = true).
  { intros r' H. injection H as <-.
    eexists; split; [reflexivity | split; reflexivity]. }
  destruct out as [[| | | | |l|d]| |e]; try apply Hfb; try discriminate.
  destruct (issubset required_keys d) eqn:Hs; [|apply Hfb].
  destruct (truthy (dict_get_or d "exploration_plan" PNone)) eqn:Ht; [|apply Hfb].
  cbn [andb]. intros H. injection H as <-. exists d. auto.
Qed.

Lemma run_recommendation_comparison (s : AssistantState) (h : list call) (c m : string) :
  decision_type s = PStr "comparison" ->
  joined_or (py_or (extracted_constraints s) (PList [])) "none stated" = Ok c ->
  joined_or (py_or (missing_information s) (PList [])) "none" = Ok m ->
  let goal := py_or (interpreted_goal s) (PStr (user_input s)) in
  run_recommendation s h =
    (rbind (checked goal
              (json_loads (complete h _COMPARISON_SYSTEM_PROMPT (comparison_block goal c m))))
           (fun r => Ok (update_recommendations s r)),
     (_COMPARISON_SYSTEM_PROMPT, comparison_block goal c m) :: h).
Proof.
  intros Hdt Hc Hm goal. unfold run_recommendation.
  rewrite (proj2 (comparison_test (decision_type s)) Hdt).
  unfold bind at 1. fold goal.
  rewrite (generate_comparison_run goal _ _ h Hc Hm).
  destruct (checked goal _); reflexivity.
Qed.

Lemma run_recommendation_direct (s : AssistantState) (h : list call) (c m : string) :
  decision_type s <> PStr "comparison" ->
  joined_or (py_or (extracted_constraints s) (PList [])) "none stated" = Ok c ->
  joined_or (py_or (missing_information s) (PList [])) "none" = Ok m ->
  let goal := py_or (interpreted_goal s) (PStr (user_input s)) in
  run_recommendation s h =
    (rbind (parsed_or_degraded
              (json_loads (complete h _DIRECT_PATH_SYSTEM_PROMPT (direct_block goal c m))))
           (fun v => rbind (get v "primary_path" PNone)
                       (fun _ => Ok (update_recommendations s v))),
     (_DIRECT_PATH_SYSTEM_PROMPT, direct_block goal c m) :: h).
Proof.
  intros Hdt Hc Hm goal.
  unfold run_recommendation.
  rewrite (proj2 (comparison_test_false (decision_type s)) Hdt).
  unfold bind at 1. fold goal.
  rewrite (generate_direct_run goal _ _ h Hc Hm).
  destruct (parsed_or_degraded _) as [v|e]; [|reflexivity].
  unfold bind, lift, ret. cbn [rbind]. destruct (get v "primary_path" PNone); reflexivity.
Qed.

(** C1, as amended: on the comparison branch, for every backend text on
    which [json.loads] returns a value or raises [JSONDecodeError], the
    stage returns a state whose [recommendations] is a mapping with the five
    keys [strategy], [exploration_plan], [decision_criteria],
    [final_suggestion], [resources] and an [exploration_plan] that is truthy
    (its type and its entries are not looked at); text that is not JSON,
    JSON that is not a mapping, a mapping without one of the five keys and a
    mapping whose plan is empty are each replaced by the fixed fallback
    object, and any other mapping is stored as it is. *)
Theorem comparison_recommendations_valid (s : AssistantState) (h : list call)
    (cs ms : list string) :
  decision_type s = PStr "comparison" ->
  py_or (extracted_constraints s) (PList []) = PList (map PStr cs) ->
  py_or (missing_information s) (PList []) = PList (map PStr ms) ->
  let usr :=
    "Student goal: " ++ fmt (py_or (interpreted_goal s) (PStr (user_input s))) ++ nl ++
    "Explicit constraints: " ++
      match cs with [] => "none stated" | _ => String.concat ", " cs end ++ nl ++
    "Missing information: " ++
      match ms with [] => "none" | _ => String.concat ", " ms end in
  let out := json_loads (complete h _COMPARISON_SYSTEM_PROMPT usr) in
  let fallback :=
    PDict
      [ ("strategy", PStr "exploration_experiment");
        ("exploration_plan",
          PList
            [ PDict [ ("week", PInt 1);
                      ("focus", PStr "Backend Development");
                      ("task", PStr "Build a small REST API using FastAPI with authentication and database integration.") ];
              PDict [ ("week", PInt 2);
                      ("focus", PStr "Machine Learning");
                      ("task", PStr "Build a small end-to-end ML classification project and expose it via a simple API.") ] ]);
        ("decision_criteria",
          PList
            [ PStr "Which work felt more engaging?";
              PStr "Which learning curve felt sustainable?";
              PStr "Which type of problem-solving excited you more?" ]);
        ("final_suggestion",
          PStr "Choose the path that maintains your long-term curiosity after hands-on exploration.");
        ("resources",
          PList
            [ PStr "FastAPI official documentation";
              PStr "Scikit-learn documentation";
              PStr "Andrew Ng Machine Learning Course" ]) ] in
  (forall e, out <> LoadsRaises e) ->
  exists s' d plan,
    run_recommendation s h = (Ok s', (_COMPARISON_SYSTEM_PROMPT, usr) :: h) /\
    recommendations s' = PDict d /\
    (forall k, In k ["strategy"; "exploration_plan"; "decision_criteria";
                     "final_suggestion"; "resources"] ->
               exists v, dict_get d k = Some v) /\
    dict_get d "exploration_plan" = Some plan /\
    truthy plan = true /\
    (out = JSONDecodeError -> PDict d = fallback) /\
    (forall v, out = Loaded v -> isinstance_dict v = false -> PDict d = fallback) /\
    (forall d' k, out = Loaded (PDict d') ->
       In k ["strategy"; "exploration_plan"; "decision_criteria";
             "final_suggestion"; "resources"] ->
       dict_get d' k = None -> PDict d = fallback) /\
    (forall d' plan', out = Loaded (PDict d') ->
       dict_get d' "exploration_plan" = Some plan' -> truthy plan' = false ->
       PDict d = fallback) /\
    (forall d', out = Loaded (PDict d') ->
       (forall k, In k ["strategy"; "exploration_plan"; "decision_criteria";
                        "final_suggestion"; "resources"] ->
                  exists v, dict_get d' k = Some v) ->
       truthy (dict_get_or d' "exploration_plan" PNone) = true ->
       d = d').
Proof.
  intros Hdt Hcs Hms usr out fallback Hreturns.
  pose proof (joined_or_list cs "none stated") as Hc. rewrite <- Hcs in Hc.
  pose proof (joined_or_list ms "none") as Hm. rewrite <- Hms in Hm.
  set (goal := py_or (interpreted_goal s) (PStr (user_input s))) in *.
  pose proof (@run_recommendation_comparison s h _ _ Hdt Hc Hm) as Hrun.
  cbv zeta in Hrun. fold goal in Hrun.
  change (comparison_block goal
            match cs with [] => "none stated" | _ => String.concat ", " cs end
            match ms with [] => "none" | _ => String.concat ", " ms end)
    with usr in Hrun.
  fold out in Hrun.
  destruct (checked goal out) as [r|e] eqn:Hchk.
  2:{ exfalso. subst checked. cbv beta in Hchk.
      destruct out as [[| | | | |l|d]| |e'] eqn:Hout; try discriminate.
      exact (Hreturns e' eq_refl). }
  destruct (@checked_valid goal out r Hchk) as [d [-> [Hsub Hplan]]].
  assert (Hkeys : forall k, In k required_keys -> exists v, dict_get d k = Some v).
  { intros k Hk. apply has_key_get. revert k Hk. apply issubset_spec. exact Hsub. }
  destruct (Hkeys "exploration_plan") as [plan Hp]; [simpl; tauto|].
  exists (update_recommendations s (PDict d)), d, plan.
  assert (Htruthy : truthy plan = true).
  { unfold dict_get_or in Hplan. rewrite Hp in Hplan. exact Hplan. }
  split; [exact Hrun|]. split; [reflexivity|].
  split; [exact Hkeys|]. split; [exact Hp|]. split; [exact Htruthy|].
  change fallback with (_comparison_fallback goal).
  subst checked. cbv beta in Hchk.
  repeat split.
  - intros E. rewrite E in Hchk. congruence.
  - intros v E Hv. rewrite E in Hchk. destruct v; try discriminate; congruence.
  - intros d' k E Hk Hnone. rewrite E in Hchk.
    assert (Hs : issubset required_keys d' = false).
    { apply issubset_false. exists k. split; [exact Hk|].
      destruct (has_key d' k) eqn:Ek; [|reflexivity].
      apply has_key_get in Ek. destruct Ek as [v Ek]. congruence. }
    rewrite Hs in Hchk. cbn [andb] in Hchk. congruence.
  - intros d' plan' E Hp' Hf. rewrite E in Hchk. unfold dict_get_or in Hchk.
    rewrite Hp', Hf, andb_false_r in Hchk. congruence.
  - intros d' E Hall Ht. rewrite E in Hchk.
    assert (Hs : issubset required_keys d' = true).
    { apply issubset_spec. intros k Hk. apply has_key_get. apply Hall. exact Hk. }
    rewrite Hs, Ht in Hchk. cbn [andb] in Hchk. congruence.
Qed.

(** C7: on the direct-path branch, when [json.loads] raises
    [JSONDecodeError] on the backend's text, the stored [recommendations] is
    exactly the degraded object ([primary_path] "Unable to parse
    recommendations.", [secondary_path] "N/A", [reasoning] "LLM returned
    unexpected format.", empty [immediate_next_steps] and [resources]); a
    mapping that parses is stored as it is, whatever keys it has or lacks;
    and any other exception of [json.loads] leaves the stage, which then
    stores nothing. *)
Theorem direct_parse_failure (s : AssistantState) (h : list call)
    (cs ms : list string) :
  decision_type s <> PStr "comparison" ->
  py_or (extracted_constraints s) (PList []) = PList (map PStr cs) ->
  py_or (missing_information s) (PList []) = PList (map PStr ms) ->
  let usr :=
    "Student goal: " ++ fmt (py_or (interpreted_goal s) (PStr (user_input s))) ++ nl ++
    "Constraints / preferences: " ++
      match cs with [] => "none stated" | _ => String.concat ", " cs end ++ nl ++
    "Note — information not available: " ++
      match ms with [] => "none" | _ => String.concat ", " ms end in
  let out := json_loads (complete h _DIRECT_PATH_SYSTEM_PROMPT usr) in
  (out = JSONDecodeError ->
   exists s',
     run_recommendation s h = (Ok s', (_DIRECT_PATH_SYSTEM_PROMPT, usr) :: h) /\
     recommendations s' =
       PDict [ ("primary_path", PStr "Unable to parse recommendations.");
               ("secondary_path", PStr "N/A");
               ("reasoning", PStr "LLM returned unexpected format.");
               ("immediate_next_steps", PList []);
               ("resources", PList []) ]) /\
  (forall d, out = Loaded (PDict d) ->
   exists s',
     run_recommendation s h = (Ok s', (_DIRECT_PATH_SYSTEM_PROMPT, usr) :: h) /\
     recommendations s' = PDict d) /\
  (forall e, out = LoadsRaises e ->
   run_recommendation s h = (Raise e, (_DIRECT_PATH_SYSTEM_PROMPT, usr) :: h)).
Proof.
  intros Hdt Hcs Hms usr out.
  pose proof (joined_or_list cs "none stated") as Hc. rewrite <- Hcs in Hc.
  pose proof (joined_or_list ms "none") as Hm. rewrite <- Hms in Hm.
  pose proof (@run_recommendation_direct s h _ _ Hdt Hc Hm) as Hrun.
  cbv zeta in Hrun.
  change (direct_block (py_or (interpreted_goal s) (PStr (user_input s)))
            match cs with [] => "none stated" | _ => String.concat ", " cs end
            match ms with [] => "none" | _ => String.concat ", " ms end)
    with usr in Hrun.
  fold out in Hrun. subst parsed_or_degraded. cbv beta in Hrun.
  split; [|split].
  - intros E. rewrite E in Hrun. eexists. split; [exact Hrun | reflexivity].
  - intros d E. rewrite E in Hrun. eexists. split; [exact Hrun | reflexivity].
  - intros e E. rewrite E in Hrun. exact Hrun.
Qed.

(** C10: on the direct-path branch the generator returns whatever value the
    backend's text parses to, with no check that it is a mapping.  The stage
    stores that value when it is a mapping; when it is an array, a string, a
    number, a boolean or null, the argument of the log line,
    [recommendations.get('primary_path')], raises [AttributeError] before
    the value can be stored. *)
Theorem direct_parsed_value (s : AssistantState) (h : list call)
    (cs ms : list string) :
  decision_type s <> PStr "comparison" ->
  py_or (extracted_constraints s) (PList []) = PList (map PStr cs) ->
  py_or (missing_information s) (PList []) = PList (map PStr ms) ->
  let usr :=
    "Student goal: " ++ fmt (py_or (interpreted_goal s) (PStr (user_input s))) ++ nl ++
    "Constraints / preferences: " ++
      match cs with [] => "none stated" | _ => String.concat ", " cs end ++ nl ++
    "Note — information not available: " ++
      match ms with [] => "none" | _ => String.concat ", " ms end in
  forall v, json_loads (complete h _DIRECT_PATH_SYSTEM_PROMPT usr) = Loaded v ->
    _generate_direct_recommendation
      (py_or (interpreted_goal s) (PStr (user_input s)))
      (py_or (extracted_constraints s) (PList []))
      (py_or (missing_information s) (PList [])) h =
      (Ok v, (_DIRECT_PATH_SYSTEM_PROMPT, usr) :: h) /\
    (isinstance_dict v = true ->
     exists s',
       run_recommendation s h = (Ok s', (_DIRECT_PATH_SYSTEM_PROMPT, usr) :: h) /\
       recommendations s' = v) /\
    (isinstance_dict v = false ->
     run_recommendation s h =
       (Raise AttributeError, (_DIRECT_PATH_SYSTEM_PROMPT, usr) :: h)).
Proof.
  intros Hdt Hcs Hms usr v Hv.
  pose proof (joined_or_list cs "none stated") as Hc. rewrite <- Hcs in Hc.
  pose proof (joined_or_list ms "none") as Hm. rewrite <- Hms in Hm.
  pose proof (@run_recommendation_direct s h _ _ Hdt Hc Hm) as Hrun.
  pose proof (generate_direct_run (py_or (interpreted_goal s) (PStr (user_input s)))
                _ _ h Hc Hm) as Hgen.
  cbv zeta in Hrun.
  change (direct_block (py_or (interpreted_goal s) (PStr (user_input s)))
            match cs with [] => "none stated" | _ => String.concat ", " cs end
            match ms with [] => "none" | _ => String.concat ", " ms end)
    with usr in Hrun, Hgen.
  rewrite Hv in Hrun, Hgen. subst parsed_or_degraded. cbv beta in Hrun, Hgen.
  split; [exact Hgen|]. split.
  - intros Hd. destruct v; try discriminate.
    eexists. split; [exact Hrun | reflexivity].
  - intros Hd. rewrite Hrun. destruct v; try discriminate; reflexivity.
Qed.

End Recommendation.

(** ** The coordinator stage *)

Lemma str_app_assoc (a b c : string) : (a ++ b) ++ c = a ++ (b ++ c).
Proof. induction a as [|x a IH]; simpl; [reflexivity | rewrite IH; reflexivity]. Qed.

Lemma str_app_nil_r (a : string) : a ++ "" = a.
Proof. induction a as [|x a IH]; simpl; [reflexivity | rewrite IH; reflexivity]. Qed.

Section Coordinator.
Import coordinator.
Context {B : Builtins} {K : Backend}.

Lemma bullets_lines (acc : string) (items : list pyval) :
  bullets acc items =
    acc ++ fold_right (fun c rest => "- " ++ fmt c ++ nl ++ rest) "" items.
Proof.
  revert acc. induction items as [|x items IH]; intros acc; unfold bullets in *; simpl.
  - rewrite str_app_nil_r. reflexivity.
  - rewrite IH. rewrite str_app_assoc. simpl. rewrite str_app_assoc. reflexivity.
Qed.

Lemma week_block_dicts (e0 e1 : list (string * pyval)) (rest : list pyval) :
  week_block (PList (PDict e0 :: PDict e1 :: rest)) =
    Ok ("**Week 1 — " ++ fmt (dict_get_or e0 "focus" (PStr "Option A")) ++ "**" ++ nl ++
        "- " ++ fmt (dict_get_or e0 "task" (PStr "Explore this path")) ++ nl ++ nl ++
        "**Week 2 — " ++ fmt (dict_get_or e1 "focus" (PStr "Option B")) ++ "**" ++ nl ++
        "- " ++ fmt (dict_get_or e1 "task" (PStr "Explore this path")) ++ nl ++ nl).
Proof. reflexivity. Qed.

Lemma compile_comparison_no_call (s : AssistantState) (h : list call) :
  decision_type s = PStr "comparison" ->
  snd (compile_response s h) = h.
Proof.
  intros Hdt. unfold compile_response.
  rewrite (proj2 (comparison_test (decision_type s)) Hdt).
  unfold bind, lift, ret.
  repeat match goal with
         | |- context [match ?x with _ => _ end] => destruct x
         end; reflexivity.
Qed.

Lemma compile_direct_call (s : AssistantState) (h : list call) :
  decision_type s <> PStr "comparison" ->
  exists prompt,
    compile_response s h =
      (Ok (update_final_response s
             (PStr (str_strip
                      (complete h "You are a helpful student planning assistant." prompt)))),
       ("You are a helpful student planning assistant.", prompt) :: h).
Proof.
  intros Hdt. unfold compile_response.
  rewrite (proj2 (comparison_test_false (decision_type s)) Hdt).
  eexists. reflexivity.
Qed.

(** C6, as amended: for every state whose [decision_type] is "comparison"
    the coordinator makes no backend call and its outcome is the same
    under any backend; and whenever [recommendations] is absent or a
    mapping whose [exploration_plan] is a list that has fewer than two
    entries or starts with two mappings and whose [decision_criteria] is a
    list, [final_response] is the fixed introduction, then (with at least
    two plan entries) the "Week 1" block from entry 0's [focus] and [task]
    (defaults "Option A", "Explore this path") and the "Week 2" block from
    entry 1's (defaults "Option B", "Explore this path"), then the
    reflection heading with the first three criteria at most as bullet
    lines, then a line break and [final_suggestion] when it is not
    empty. *)
Theorem comparison_response_assembly (s : AssistantState) (h : list call) :
  decision_type s = PStr "comparison" ->
  snd (compile_response s h) = h /\
  (forall K' : Backend,
     @compile_response B K' s h = @compile_response B K s h) /\
  (forall d pl cl sg,
     py_or (recommendations s) (PDict []) = PDict d ->
     dict_get_or d "exploration_plan" (PList []) = PList pl ->
     dict_get_or d "decision_criteria" (PList []) = PList cl ->
     dict_get_or d "final_suggestion" (PStr "") = sg ->
     ((2 <= List.length pl)%nat ->
        exists e0 e1 rest, pl = PDict e0 :: PDict e1 :: rest) ->
     let weeks :=
       match pl with
       | PDict e0 :: PDict e1 :: _ =>
           "**Week 1 — " ++ fmt (dict_get_or e0 "focus" (PStr "Option A")) ++ "**" ++ nl ++
           "- " ++ fmt (dict_get_or e0 "task" (PStr "Explore this path")) ++ nl ++ nl ++
           "**Week 2 — " ++ fmt (dict_get_or e1 "focus" (PStr "Option B")) ++ "**" ++ nl ++
           "- " ++ fmt (dict_get_or e1 "task" (PStr "Explore this path")) ++ nl ++ nl
       | _ => ""
       end in
     let lines :=
       fold_right (fun c rest => "- " ++ fmt c ++ nl ++ rest) "" (firstn 3 cl) in
     let closing := if truthy sg then nl ++ fmt sg else "" in
     compile_response s h =
       (Ok (update_final_response s
              (PStr ("This is a comparison decision. Instead of prematurely selecting one path, I recommend a structured two-week exploration plan:" ++ nl ++ nl ++
                     weeks ++
                     "After completing both phases, reflect on:" ++ nl ++
                     lines ++ closing))),
        h)).
Proof.
  intros Hdt. split; [apply compile_comparison_no_call; exact Hdt|]. split.
  - intros K'. unfold compile_response.
    rewrite (proj2 (comparison_test (decision_type s)) Hdt). reflexivity.
  - intros d pl cl sg Hd Hpl Hcl Hsg Hshape weeks lines closing.
    unfold compile_response.
    rewrite (proj2 (comparison_test (decision_type s)) Hdt).
    rewrite Hd. unfold bind, lift, ret. cbn [get len slice_to].
    rewrite Hpl, Hcl, Hsg. cbn [len slice_to].
    assert (Hweeks :
      (if (2 <=? List.length pl)%nat
       then rbind (week_block (PList pl)) (fun w => Ok (intro ++ w))
       else Ok intro) = Ok (intro ++ weeks)).
    { destruct (2 <=? List.length pl)%nat eqn:E.
      - apply Nat.leb_le in E. destruct (Hshape E) as [e0 [e1 [rest ->]]].
        rewrite week_block_dicts. reflexivity.
      - apply Nat.leb_gt in E. subst weeks.
        destruct pl as [|p0 [|p1 pl]]; simpl in E; try lia;
          try (rewrite str_app_nil_r; reflexivity).
        destruct p0; rewrite str_app_nil_r; reflexivity. }
    rewrite Hweeks. rewrite bullets_lines. fold lines.
    f_equal. f_equal. f_equal.
    unfold intro. subst closing.
    destruct (truthy sg); rewrite ?str_app_assoc, ?str_app_nil_r; reflexivity.
Qed.

End Coordinator.

(** ** The stages together *)

Lemma cons_neq {A : Type} (x : A) (l : list A) : x :: l <> l.
Proof.
  intros H. apply (f_equal (@List.length A)) in H. simpl in H. lia.
Qed.

Lemma call_head_inj (p p' u u' : string) (h h' : list call) :
  (p, u) :: h = (p', u') :: h' -> p = p'.
Proof. intros H. injection H as Hp _ _. exact Hp. Qed.

Lemma system_prompts_differ :
  recommendation._COMPARISON_SYSTEM_PROMPT <> recommendation._DIRECT_PATH_SYSTEM_PROMPT.
Proof.
  intros H. apply String.eqb_eq in H. vm_compute in H. discriminate.
Qed.

Section Pipeline.
Import domain_reasoning recommendation coordinator.
Context {B : Builtins} {K : Backend}.

Lemma run_recommendation_comparison_log (s : AssistantState) (h : list call) :
  decision_type s = PStr "comparison" ->
  opt_list_str (extracted_constraints s) = true ->
  opt_list_str (missing_information s) = true ->
  exists usr, snd (run_recommendation s h) = (_COMPARISON_SYSTEM_PROMPT, usr) :: h.
Proof.
  intros Hdt Hcs Hms.
  destruct (@joined_or_valid _ "none stated" Hcs) as [c Hc].
  destruct (@joined_or_valid _ "none" Hms) as [m Hm].
  rewrite (@run_recommendation_comparison _ _ s h c m Hdt Hc Hm).
  eexists. reflexivity.
Qed.

Lemma run_recommendation_direct_log (s : AssistantState) (h : list call) :
  decision_type s <> PStr "comparison" ->
  opt_list_str (extracted_constraints s) = true ->
  opt_list_str (missing_information s) = true ->
  exists usr, snd (run_recommendation s h) = (_DIRECT_PATH_SYSTEM_PROMPT, usr) :: h.
Proof.
  intros Hdt Hcs Hms.
  destruct (@joined_or_valid _ "none stated" Hcs) as [c Hc].
  destruct (@joined_or_valid _ "none" Hms) as [m Hm].
  rewrite (@run_recommendation_direct _ _ s h c m Hdt Hc Hm).
  eexists. reflexivity.
Qed.

(** C8: the two later stages branch alike on every state.  When
    [decision_type] is the string "comparison" the recommendation stage runs
    its comparison generator and the coordinator assembles its text without
    a backend call; for every other value, unset included, the
    recommendation stage runs its direct-path generator and the coordinator
    asks the backend.  Seen from the call log, for a state whose list fields
    have their declared types: the recommendation stage calls with the
    comparison prompt exactly when the coordinator makes no call, and with
    the direct-path prompt exactly when the coordinator calls. *)
Theorem stages_branch_alike (s : AssistantState) (h : list call) :
  let goal := py_or (interpreted_goal s) (PStr (user_input s)) in
  let constraints := py_or (extracted_constraints s) (PList []) in
  let missing := py_or (missing_information s) (PList []) in
  let rec_comparison :=
    run_recommendation s h =
      (r <- _generate_comparison_recommendation goal constraints missing ;;
       ret (update_recommendations s r)) h in
  let rec_direct :=
    run_recommendation s h =
      (r <- _generate_direct_recommendation goal constraints missing ;;
       _ <~ get r "primary_path" PNone ;;
       ret (update_recommendations s r)) h in
  let coord_comparison := snd (compile_response s h) = h in
  let coord_direct :=
    exists usr, snd (compile_response s h) =
                ("You are a helpful student planning assistant.", usr) :: h in
  (decision_type s = PStr "comparison" -> rec_comparison /\ coord_comparison) /\
  (decision_type s <> PStr "comparison" -> rec_direct /\ coord_direct) /\
  (coord_comparison <-> decision_type s = PStr "comparison") /\
  (coord_direct <-> decision_type s <> PStr "comparison") /\
  (decision_type s = PNone -> rec_direct /\ coord_direct) /\
  (opt_list_str (extracted_constraints s) = true ->
   opt_list_str (missing_information s) = true ->
   let calls_comparison :=
     exists usr, snd (run_recommendation s h) = (_COMPARISON_SYSTEM_PROMPT, usr) :: h in
   let calls_direct :=
     exists usr, snd (run_recommendation s h) = (_DIRECT_PATH_SYSTEM_PROMPT, usr) :: h in
   (calls_comparison <-> coord_comparison) /\ (calls_direct <-> coord_direct)).
Proof.
  intros goal constraints missing rec_comparison rec_direct coord_comparison coord_direct.
  assert (Hcmp : decision_type s = PStr "comparison" ->
                 rec_comparison /\ coord_comparison /\ ~ coord_direct).
  { intros E. split; [|split].
    - unfold rec_comparison, run_recommendation.
      rewrite (proj2 (comparison_test (decision_type s)) E). reflexivity.
    - exact (@compile_comparison_no_call _ _ s h E).
    - intros [usr Hlog]. rewrite (@compile_comparison_no_call _ _ s h E) in Hlog.
      symmetry in Hlog. exact (cons_neq Hlog). }
  assert (Hdir : decision_type s <> PStr "comparison" ->
                 rec_direct /\ coord_direct /\ ~ coord_comparison).
  { intros E. destruct (@compile_direct_call _ _ s h E) as [prompt Hrun].
    split; [|split].
    - unfold rec_direct, run_recommendation.
      rewrite (proj2 (comparison_test_false (decision_type s)) E). reflexivity.
    - exists prompt. rewrite Hrun. reflexivity.
    - unfold coord_comparison. rewrite Hrun. simpl. apply cons_neq. }
  assert (Hdec : decision_type s = PStr "comparison" \/ decision_type s <> PStr "comparison").
  { destruct (eq_str (py_or (decision_type s) (PStr "direct_path")) "comparison") eqn:E.
    - left. apply comparison_test. exact E.
    - right. apply comparison_test_false. exact E. }
  split; [tauto|]. split; [tauto|]. split; [tauto|]. split; [tauto|].
  split.
  - intros Hnone. assert (E : decision_type s <> PStr "comparison") by congruence. tauto.
  - intros Hcs Hms calls_comparison calls_direct.
    destruct Hdec as [E | E].
    + destruct (@run_recommendation_comparison_log s h E Hcs Hms) as [usr Hlog].
      assert (Hnd : ~ calls_direct).
      { intros [usr' Hlog']. rewrite Hlog in Hlog'.
        apply call_head_inj in Hlog'. exact (system_prompts_differ Hlog'). }
      assert (Hc : calls_comparison) by (exists usr; exact Hlog).
      specialize (Hcmp E). tauto.
    + destruct (@run_recommendation_direct_log s h E Hcs Hms) as [usr Hlog].
      assert (Hnc : ~ calls_comparison).
      { intros [usr' Hlog']. rewrite Hlog in Hlog'.
        apply call_head_inj in Hlog'. symmetry in Hlog'.
        exact (system_prompts_differ Hlog'). }
      assert (Hd : calls_direct) by (exists usr; exact Hlog).
      specialize (Hdir E). tauto.
Qed.

Lemma run_domain_reasoning_frame (s s' : AssistantState) (h h' : list call) :
  run_domain_reasoning s h = (Ok s', h') ->
  s' = update_domain s (interpreted_goal s') (extracted_constraints s')
         (missing_information s') (confidence_score s') (decision_type s').
Proof.
  unfold run_domain_reasoning, bind, lift, invoke, ret.
  repeat match goal with
         | |- context [match ?x with _ => _ end] => destruct x
         end; intros H; inversion H; subst; reflexivity.
Qed.

Lemma run_recommendation_frame (s s' : AssistantState) (h h' : list call) :
  run_recommendation s h = (Ok s', h') ->
  s' = update_recommendations s (recommendations s').
Proof.
  unfold run_recommendation, _generate_comparison_recommendation,
    _generate_direct_recommendation, bind, lift, invoke, ret.
  repeat match goal with
         | |- context [match ?x with _ => _ end] => destruct x
         end; intros H; inversion H; subst; reflexivity.
Qed.

Lemma compile_response_frame (s s' : AssistantState) (h h' : list call) :
  compile_response s h = (Ok s', h') ->
  s' = update_final_response s (final_response s').
Proof.
  unfold compile_response, bind, lift, invoke, ret.
  repeat match goal with
         | |- context [match ?x with _ => _ end] => destruct x
         end; intros H; inversion H; subst; reflexivity.
Qed.

(** C9: a stage that returns a state returns its input state with only its
    own fields replaced: the domain stage [interpreted_goal],
    [extracted_constraints], [missing_information], [confidence_score] and
    [decision_type]; the recommendation stage [recommendations]; the
    coordinator [final_response].  So [user_input] is the same after each,
    the recommendation stage keeps the five fields of the domain stage,
    and the coordinator keeps those and [recommendations]. *)
Theorem stages_frame (a a' b b' c c' : AssistantState)
    (ha ha' hb hb' hc hc' : list call) :
  run_domain_reasoning a ha = (Ok a', ha') ->
  run_recommendation b hb = (Ok b', hb') ->
  compile_response c hc = (Ok c', hc') ->
  (user_input a' = user_input a /\
   recommendations a' = recommendations a /\
   final_response a' = final_response a) /\
  (user_input b' = user_input b /\
   interpreted_goal b' = interpreted_goal b /\
   extracted_constraints b' = extracted_constraints b /\
   missing_information b' = missing_information b /\
   confidence_score b' = confidence_score b /\
   decision_type b' = decision_type b /\
   final_response b' = final_response b) /\
  (user_input c' = user_input c /\
   interpreted_goal c' = interpreted_goal c /\
   extracted_constraints c' = extracted_constraints c /\
   missing_information c' = missing_information c /\
   confidence_score c' = confidence_score c /\
   decision_type c' = decision_type c /\
   recommendations c' = recommendations c).
Proof.
  intros Ha Hb Hc.
  apply run_domain_reasoning_frame in Ha.
  apply run_recommendation_frame in Hb.
  apply compile_response_frame in Hc.
  rewrite Ha, Hb, Hc. simpl. repeat split; reflexivity.
Qed.

End Pipeline.

(** ** Concrete runs *)

Section Runs.
Import Examples domain_reasoning recommendation coordinator.

(** A goal with " or " and "better" in it is a comparison. *)
Lemma decision_type_classification_run :
  exists s',
    @run_domain_reasoning builtins (scripted [versus_text]) (initial ml_or_backend) [] =
      (Ok s', log1) /\
    decision_type s' = PStr "comparison".
Proof.
  destruct (@decision_type_classification builtins (scripted [versus_text])
              (initial ml_or_backend) [] versus_dict
              "Decide whether ML or backend is the better focus" f0_95
              eq_refl eq_refl eq_refl) as [s' [Hrun [Hcmp _]]].
  exists s'. split; [exact Hrun|].
  apply Hcmp. exists " or ". split; [simpl; tauto|].
  apply contains_spec. vm_compute. reflexivity.
Defined.

(** The run of the specification's example: the goal "choosing between ML
    and backend" is classified "direct_path", not "comparison", and the
    confidence 0.95 is stored as it is. *)
Lemma choosing_goal_run :
  @run_domain_reasoning builtins (scripted [choosing_text]) (initial ml_or_backend) [] =
    (Ok direct_state, log1) /\
  decision_type direct_state = PStr "direct_path" /\
  eq_str (decision_type direct_state) "comparison" = false /\
  contains " or " (ascii_lower ml_or_backend) = true.
Proof. vm_compute. repeat split; reflexivity. Qed.

Lemma choosing_goal_is_direct_path_run :
  exists s',
    @run_domain_reasoning builtins (scripted [choosing_text]) (initial ml_or_backend) [] =
      (Ok s', log1) /\
    decision_type s' = PStr "direct_path".
Proof.
  exact (@choosing_goal_is_direct_path builtins (scripted [choosing_text])
           (initial ml_or_backend) [] choosing_dict f0_95
           eq_refl eq_refl eq_refl eq_refl).
Defined.

(** A comparison without background context: 0.95 is stored as 0.67. *)
Lemma confidence_adjustment_run :
  exists s',
    @run_domain_reasoning builtins (scripted [versus_text]) (initial ml_or_backend) [] =
      (Ok s', log1) /\
    confidence_score s' = PFloat f0_67.
Proof.
  destruct (@confidence_adjustment builtins (scripted [versus_text])
              (initial ml_or_backend) [] versus_dict
              "Decide whether ML or backend is the better focus" f0_95
              eq_refl eq_refl eq_refl) as [s' [Hrun [_ [_ [_ Hcap]]]]].
  exists s'. split; [exact Hrun|].
  apply Hcap.
  - assert (E : s' = comparison_state).
    { assert (Hrun' := Hrun). vm_compute in Hrun'. injection Hrun' as <-.
      vm_compute. reflexivity. }
    rewrite E. reflexivity.
  - apply any_in_false. vm_compute. reflexivity.
  - reflexivity.
Defined.

(** The completion lists "likes math"; the stored constraints are the two
    categories found in the query. *)
Lemma constraints_from_user_input_run :
  exists s' found,
    fst (@run_domain_reasoning builtins (scripted [versus_text]) (initial beginner_query) []) =
      Ok s' /\
    extracted_constraints s' = PList (map PStr found) /\
    found = ["time"; "experience"].
Proof.
  destruct (@constraints_from_user_input builtins (scripted [versus_text])
              (initial beginner_query) [] versus_dict
              "Decide whether ML or backend is the better focus" f0_95
              eq_refl eq_refl eq_refl)
    as [s' [found [Hrun [Hstored [_ [_ [_ [_ Hex]]]]]]]].
  exists s', found. split; [rewrite Hrun; reflexivity|].
  split; [exact Hstored|]. apply Hex. reflexivity.
Defined.

(** Prose instead of JSON on the comparison branch: the fallback plan. *)
Lemma comparison_recommendations_valid_run :
  exists s',
    @run_recommendation builtins (scripted [versus_text; prose_text])
      comparison_state log1 =
      (Ok s',
       (_COMPARISON_SYSTEM_PROMPT,
        "Student goal: Decide whether ML or backend is the better focus" ++ nl ++
        "Explicit constraints: none stated" ++ nl ++
        "Missing information: year of study") :: log1) /\
    recommendations s' =
      _comparison_fallback (PStr "Decide whether ML or backend is the better focus").
Proof.
  destruct (@comparison_recommendations_valid builtins
              (scripted [versus_text; prose_text]) comparison_state log1
              [] ["year of study"] eq_refl eq_refl eq_refl
              ltac:(intros e H; vm_compute in H; discriminate H))
    as [s' [d [plan [Hrun [Hrecs [_ [_ [_ [Hnone _]]]]]]]]].
  exists s'. split; [exact Hrun|].
  rewrite Hrecs. exact (Hnone eq_refl).
Defined.

(** A plan that is the number 7 passes the checks of the recommendation
    stage and is stored; it has no entries to count, and the coordinator
    raises on it. *)
Lemma seven_plan_kept :
  rbind (fst (@run_recommendation builtins (scripted [versus_text; seven_plan_text])
                comparison_state log1))
        (fun t => Ok (dict_get_or
                        (match recommendations t with PDict d => d | _ => [] end)
                        "exploration_plan" PNone)) = Ok (PInt 7) /\
  len (PInt 7) = Raise TypeError /\
  rbind (fst (@run_recommendation builtins (scripted [versus_text; seven_plan_text])
                comparison_state log1))
        (fun t => fst (@compile_response builtins
                         (scripted [versus_text; seven_plan_text]) t [])) =
    Raise TypeError.
Proof. vm_compute. repeat split; reflexivity. Qed.

(** On the direct-path branch: prose instead of JSON stores the degraded
    object; two thousand opening brackets make [json.loads] raise
    [RecursionError], which leaves the stage. *)
Lemma direct_parse_failure_run :
  (exists s',
     @run_recommendation builtins (scripted [choosing_text; prose_text])
       direct_state log1 =
       (Ok s',
        (_DIRECT_PATH_SYSTEM_PROMPT,
         "Student goal: choosing between ML and backend" ++ nl ++
         "Constraints / preferences: none stated" ++ nl ++
         "Note — information not available: none") :: log1) /\
     recommendations s' = direct_parse_fallback) /\
  @run_recommendation builtins (scripted [choosing_text; deep_text])
    direct_state log1 =
    (Raise RecursionError,
     (_DIRECT_PATH_SYSTEM_PROMPT,
      "Student goal: choosing between ML and backend" ++ nl ++
      "Constraints / preferences: none stated" ++ nl ++
      "Note — information not available: none") :: log1).
Proof.
  split.
  - destruct (@direct_parse_failure builtins (scripted [choosing_text; prose_text])
                direct_state log1 [] []
                ltac:(discriminate) eq_refl eq_refl) as [Hnone _].
    exact (Hnone ltac:(vm_compute; reflexivity)).
  - destruct (@direct_parse_failure builtins (scripted [choosing_text; deep_text])
                direct_state log1 [] []
                ltac:(discriminate) eq_refl eq_refl) as [_ [_ Hraise]].
    exact (Hraise RecursionError ltac:(vm_compute; reflexivity)).
Defined.

(** A JSON array on the direct path: the generator returns it, the stage
    raises in its log line and stores nothing. *)
Lemma direct_parsed_value_run :
  @json_loads builtins array_text = Loaded (PList [PInt 1; PInt 2]) /\
  @_generate_direct_recommendation builtins (scripted [choosing_text; array_text])
    (PStr "choosing between ML and backend") (PList []) (PList []) log1 =
    (Ok (PList [PInt 1; PInt 2]),
     (_DIRECT_PATH_SYSTEM_PROMPT,
      "Student goal: choosing between ML and backend" ++ nl ++
      "Constraints / preferences: none stated" ++ nl ++
      "Note — information not available: none") :: log1) /\
  @run_recommendation builtins (scripted [choosing_text; array_text])
    direct_state log1 =
    (Raise AttributeError,
     (_DIRECT_PATH_SYSTEM_PROMPT,
      "Student goal: choosing between ML and backend" ++ nl ++
      "Constraints / preferences: none stated" ++ nl ++
      "Note — information not available: none") :: log1).
Proof.
  destruct (@direct_parsed_value builtins (scripted [choosing_text; array_text])
              direct_state log1 [] []
              ltac:(discriminate) eq_refl eq_refl
              (PList [PInt 1; PInt 2]) ltac:(vm_compute; reflexivity))
    as [Hgen [_ Hraise]].
  split; [vm_compute; reflexivity|]. split; [exact Hgen | exact (Hraise eq_refl)].
Defined.

(** A mapping with one key of the five is stored on the direct path. *)
Lemma direct_partial_mapping_stored :
  rbind (fst (@run_recommendation builtins (scripted [choosing_text; partial_text])
                direct_state log1))
        (fun t => Ok (recommendations t)) = Ok partial_value.
Proof. vm_compute. reflexivity. Qed.

(** A plan that passes the recommendation stage's checks and whose entries
    are strings: the coordinator raises on [plan[0].get]. *)
Lemma flat_plan_raises :
  fst (@run_recommendation builtins (scripted [versus_text; flat_plan_text])
         comparison_state log1) = Ok flat_state /\
  decision_type flat_state = PStr "comparison" /\
  valid flat_state = true /\
  fst (@compile_response builtins (scripted [versus_text; flat_plan_text])
         flat_state []) = Raise AttributeError.
Proof. vm_compute. repeat split; reflexivity. Qed.

(** A plan whose entries lack [focus] and [task], with four criteria. *)
Lemma comparison_response_assembly_run :
  @compile_response builtins (scripted []) bare_state log1 = (Ok bare_final, log1).
Proof.
  destruct (@comparison_response_assembly builtins (scripted []) bare_state log1
              eq_refl) as [_ [_ Htext]].
  rewrite (Htext _ _ _ _ eq_refl eq_refl eq_refl eq_refl).
  - reflexivity.
  - intros _. do 3 eexists. reflexivity.
Defined.

Lemma stages_branch_alike_run :
  (exists usr,
     snd (@run_recommendation builtins (scripted []) comparison_state log1) =
       (_COMPARISON_SYSTEM_PROMPT, usr) :: log1) /\
  snd (@compile_response builtins (scripted []) comparison_state log1) = log1.
Proof.
  destruct (@stages_branch_alike builtins (scripted []) comparison_state log1)
    as [Hcmp [_ [_ [_ [_ Hlog]]]]].
  destruct (Hlog eq_refl eq_refl) as [Hagree _].
  destruct (Hcmp eq_refl) as [_ Hcoord].
  split; [exact (proj2 Hagree Hcoord) | exact Hcoord].
Defined.

(** The three stages in a row on the scripted backend. *)
Lemma stages_frame_run :
  user_input comparison_state = ml_or_backend /\
  decision_type bare_state = decision_type comparison_state /\
  recommendations bare_final = recommendations bare_state /\
  user_input bare_final = ml_or_backend.
Proof.
  pose (K := scripted [versus_text; bare_plan_text]).
  assert (Ha : @run_domain_reasoning builtins K (initial ml_or_backend) [] =
               (Ok comparison_state, log1)) by (vm_compute; reflexivity).
  assert (Hb : fst (@run_recommendation builtins K comparison_state log1) = Ok bare_state)
    by (vm_compute; reflexivity).
  assert (Hc : @compile_response builtins K bare_state [] = (Ok bare_final, []))
    by (vm_compute; reflexivity).
  destruct (@run_recommendation builtins K comparison_state log1) as [r hb'] eqn:Hb'.
  simpl in Hb. subst r.
  destruct (@stages_frame builtins K _ _ _ _ _ _ _ _ _ _ _ _ Ha Hb' Hc)
    as [[Hu _] [[_ [_ [_ [_ [_ [Hd _]]]]]] [Hu' [_ [_ [_ [_ [_ Hr]]]]]]]].
  split; [exact Hu|]. split; [exact Hd|]. split; [exact Hr|].
  exact Hu'.
Defined.

End Runs.

(** ** More on the domain reasoning stage *)

Lemma finite_compare_antisym (m : positive) (e : Z) (c : float) :
  c <> S754_nan ->
  SFltb (S754_finite false m e) c = false ->
  SFleb c (S754_finite false m e) = true.
Proof.
  unfold SFltb, SFleb.
  destruct c as [sz|si| |s m' e']; cbn [SFcompare]; try congruence.
  - destruct si; congruence.
  - destruct s; [reflexivity|].
    intros _. rewrite (Z.compare_antisym e' e).
    destruct (e' ?= e)%Z; cbn [CompOpp]; try congruence.
    pose proof (Pos.compare_cont_antisym m' m Eq) as Hanti. cbn [CompOpp] in Hanti.
    rewrite <- Hanti.
    destruct (Pos.compare_cont Eq m' m); cbn [CompOpp]; congruence.
Qed.

Lemma cap_compare_antisym (c : float) :
  c <> S754_nan -> float_ltb f0_67 c = false -> SFleb c f0_67 = true.
Proof. apply finite_compare_antisym. Qed.

Section MoreDomainReasoning.
Import domain_reasoning.
Context {B : Builtins} {K : Backend}.

(** A returned state comes from a mapping with a string goal (or none) and
    a confidence that converts. *)
Lemma run_domain_reasoning_inv (s s' : AssistantState) (h h' : list call) :
  run_domain_reasoning s h = (Ok s', h') ->
  exists d g c,
    parse_or_fallback (complete h _SYSTEM_PROMPT (user_input s)) = Ok (PDict d) /\
    get (PDict d) "interpreted_goal" (PStr "") = Ok (PStr g) /\
    rbind (get (PDict d) "confidence_score" (PFloat f0_5)) to_float = Ok c.
Proof.
  unfold run_domain_reasoning, bind, lift, invoke, ret.
  destruct (parse_or_fallback _) as [[| | | | | |d]|e]; try discriminate.
  cbn [get]. destruct (dict_get_or d "interpreted_goal" (PStr "")) as [| | | |g| |] eqn:Hg;
    try discriminate.
  cbn [lower]. destruct (to_float _) as [c|e] eqn:Hc; [|discriminate].
  intros _. exists d, g, c. cbn [get rbind]. rewrite Hg, Hc. auto.
Qed.

(** The stage makes its one backend call whatever happens afterwards. *)
Lemma run_domain_reasoning_log (s : AssistantState) (h : list call) :
  snd (run_domain_reasoning s h) = (_SYSTEM_PROMPT, user_input s) :: h.
Proof.
  unfold run_domain_reasoning, bind, lift, invoke, ret.
  repeat match goal with
         | |- context [match ?x with _ => _ end] => destruct x
         end; reflexivity.
Qed.

Lemma run_domain_reasoning_decision (s s' : AssistantState) (h h' : list call) :
  run_domain_reasoning s h = (Ok s', h') ->
  user_input s' = user_input s /\
  (decision_type s' = PStr "comparison" \/ decision_type s' = PStr "direct_path").
Proof.
  intros Hrun.
  destruct (@run_domain_reasoning_inv _ _ _ _ Hrun) as [d [g [c [Hp [Hg Hc]]]]].
  rewrite (@run_domain_reasoning_ok _ _ s h d g c Hp Hg Hc) in Hrun.
  injection Hrun as <- _. split; [reflexivity|].
  cbn [decision_type update_domain]. unfold classify.
  destruct (any_in comparison_keywords (str_lower g)); auto.
Qed.

(** X1: when [json.loads] raises [JSONDecodeError] on the completion, the
    domain stage does not raise: it returns a state with the goal "Unable to
    parse student goal.", the one request to restate the question, the type
    "direct_path" and the confidence 0.3 uncapped, while the constraints
    still come from the scan of [user_input]. *)
Theorem domain_parse_fallback (s : AssistantState) (h : list call) :
  json_loads (complete h _SYSTEM_PROMPT (user_input s)) = JSONDecodeError ->
  exists s',
    run_domain_reasoning s h = (Ok s', (_SYSTEM_PROMPT, user_input s) :: h) /\
    interpreted_goal s' = PStr "Unable to parse student goal." /\
    extracted_constraints s' =
      PList (map PStr (_extract_explicit_constraints (user_input s))) /\
    missing_information s' = PList [PStr "Please restate your question clearly."] /\
    confidence_score s' = PFloat f0_3 /\
    decision_type s' = PStr "direct_path".
Proof.
  intros Hnone.
  assert (Hp : parse_or_fallback (complete h _SYSTEM_PROMPT (user_input s)) =
               Ok parse_fallback)
    by (unfold parse_or_fallback; rewrite Hnone; reflexivity).
  eexists. split.
  - exact (@run_domain_reasoning_ok _ _ s h _ "Unable to parse student goal." f0_3 Hp
             eq_refl eq_refl).
  - cbn [interpreted_goal extracted_constraints missing_information confidence_score
         decision_type update_domain].
    unfold classify. rewrite str_lower_ascii by reflexivity.
    repeat split; reflexivity.
Qed.

(** X2: the domain stage returns a state exactly when the parsed completion
    is a mapping whose [interpreted_goal], when present, is a string and
    whose [confidence_score] (0.5 when absent) converts to a float.  A
    completion that parses to an array, a string, a number, a boolean or
    null, and a goal that is not a string, raise [AttributeError]; a
    confidence that is null, an array or a mapping raises [TypeError]; an
    exception of [json.loads] other than [JSONDecodeError] leaves the stage
    as it is.  The backend has been called once in every case. *)
Theorem domain_stage_outcome (s : AssistantState) (h : list call) :
  let parsed := parse_or_fallback (complete h _SYSTEM_PROMPT (user_input s)) in
  snd (run_domain_reasoning s h) = (_SYSTEM_PROMPT, user_input s) :: h /\
  ((exists s', fst (run_domain_reasoning s h) = Ok s') <->
   exists d g c,
     parsed = Ok (PDict d) /\
     dict_get_or d "interpreted_goal" (PStr "") = PStr g /\
     to_float (dict_get_or d "confidence_score" (PFloat f0_5)) = Ok c) /\
  (forall v, parsed = Ok v -> isinstance_dict v = false ->
     fst (run_domain_reasoning s h) = Raise AttributeError) /\
  (forall d, parsed = Ok (PDict d) ->
     (forall g, dict_get_or d "interpreted_goal" (PStr "") <> PStr g) ->
     fst (run_domain_reasoning s h) = Raise AttributeError) /\
  (forall d g v, parsed = Ok (PDict d) ->
     dict_get_or d "interpreted_goal" (PStr "") = PStr g ->
     dict_get d "confidence_score" = Some v ->
     (v = PNone \/ (exists l, v = PList l) \/ (exists m, v = PDict m)) ->
     fst (run_domain_reasoning s h) = Raise TypeError) /\
  (forall e, parsed = Raise e -> fst (run_domain_reasoning s h) = Raise e).
Proof.
  intros parsed. split; [apply run_domain_reasoning_log|].
  split; [|split; [|split; [|split]]].
  - split.
    + intros [s' Hs'].
      destruct (run_domain_reasoning s h) as [r h'] eqn:Hrun. simpl in Hs'. subst r.
      destruct (@run_domain_reasoning_inv _ _ _ _ Hrun) as [d [g [c [Hp [Hg Hc]]]]].
      exists d, g, c. cbn [get rbind] in Hg, Hc. split; [exact Hp|].
      split; [congruence | exact Hc].
    + intros [d [g [c [Hp [Hg Hc]]]]].
      eexists. rewrite (@run_domain_reasoning_ok _ _ s h d g c Hp).
      * reflexivity.
      * cbn [get]. rewrite Hg. reflexivity.
      * cbn [get rbind]. exact Hc.
  - intros v Hp Hnd. unfold run_domain_reasoning, bind, lift, invoke, ret.
    fold parsed. rewrite Hp. destruct v; try reflexivity. discriminate.
  - intros d Hp Hng. unfold run_domain_reasoning, bind, lift, invoke, ret.
    fold parsed. rewrite Hp. cbn [get].
    destruct (dict_get_or d "interpreted_goal" (PStr "")) eqn:Hg; try reflexivity.
    exfalso. exact (Hng s0 eq_refl).
  - intros d g v Hp Hg Hv Hkind. unfold run_domain_reasoning, bind, lift, invoke, ret.
    fold parsed. rewrite Hp. cbn [get]. rewrite Hg. cbn [lower].
    unfold dict_get_or at 1. rewrite Hv.
    destruct Hkind as [-> | [[l ->] | [m ->]]]; reflexivity.
  - intros e Hp. unfold run_domain_reasoning, bind, lift, invoke, ret.
    fold parsed. rewrite Hp. reflexivity.
Qed.

(** X3: when the parsed mapping has neither [interpreted_goal] nor
    [confidence_score], the stage stores [None] as the goal (the empty
    string used for the classification is not stored), 0.5 as the
    confidence and "direct_path" as the type; the later stages then take
    [user_input] for the goal. *)
Theorem domain_missing_keys (s : AssistantState) (h : list call)
    (d : list (string * pyval)) :
  parse_or_fallback (complete h _SYSTEM_PROMPT (user_input s)) = Ok (PDict d) ->
  dict_get d "interpreted_goal" = None ->
  dict_get d "confidence_score" = None ->
  exists s',
    run_domain_reasoning s h = (Ok s', (_SYSTEM_PROMPT, user_input s) :: h) /\
    interpreted_goal s' = PNone /\
    confidence_score s' = PFloat f0_5 /\
    decision_type s' = PStr "direct_path" /\
    missing_information s' = dict_get_or d "missing_information" (PList []) /\
    py_or (interpreted_goal s') (PStr (user_input s')) = PStr (user_input s).
Proof.
  intros Hp Hg Hc. eexists. split.
  - apply (@run_domain_reasoning_ok _ _ s h d "" f0_5 Hp).
    + cbn [get]. unfold dict_get_or. rewrite Hg. reflexivity.
    + cbn [get rbind]. unfold dict_get_or. rewrite Hc. reflexivity.
  - cbn [interpreted_goal confidence_score decision_type missing_information
         user_input update_domain].
    unfold classify, dict_get_or. rewrite Hg.
    rewrite str_lower_ascii by reflexivity. repeat split; reflexivity.
Qed.

(** X4: in a state the domain stage returns, the goal is a string or
    [None], the constraints are a list of strings, the confidence is a
    float and the type is "comparison" or "direct_path"; only
    [missing_information] is stored as the completion gave it, so the state
    has its declared field types exactly when that value is null or a list
    of strings (and the two fields the stage does not write had theirs). *)
Theorem domain_output_types (s s' : AssistantState) (h h' : list call) :
  run_domain_reasoning s h = (Ok s', h') ->
  opt_str (interpreted_goal s') = true /\
  opt_list_str (extracted_constraints s') = true /\
  opt_float (confidence_score s') = true /\
  (decision_type s' = PStr "comparison" \/ decision_type s' = PStr "direct_path") /\
  valid s' =
    opt_list_str (missing_information s') &&
    opt_dict (recommendations s) && opt_str (final_response s).
Proof.
  intros Hrun.
  destruct (@run_domain_reasoning_inv _ _ _ _ Hrun) as [d [g [c [Hp [Hg Hc]]]]].
  rewrite (@run_domain_reasoning_ok _ _ s h d g c Hp Hg Hc) in Hrun.
  injection Hrun as <- _.
  assert (Hgoal : opt_str (dict_get_or d "interpreted_goal" PNone) = true).
  { cbn [get] in Hg. unfold dict_get_or in *.
    destruct (dict_get d "interpreted_goal"); [|reflexivity].
    injection Hg as ->. reflexivity. }
  assert (Hcs : forall l, opt_list_str (PList (map PStr l)) = true)
    by (intros l; simpl; rewrite all_str_map_PStr; reflexivity).
  unfold valid.
  cbn [interpreted_goal extracted_constraints missing_information confidence_score
       decision_type recommendations final_response update_domain].
  rewrite Hgoal, Hcs. cbn [opt_float opt_str andb].
  split; [reflexivity|]. split; [reflexivity|]. split; [reflexivity|]. split.
  - unfold classify. destruct (any_in comparison_keywords (str_lower g)); auto.
  - rewrite !andb_true_r. reflexivity.
Qed.

(** X5: the confidence adjustment is idempotent; for a comparison without
    background context its result is never above 0.67, and is at most 0.67
    unless the reported confidence is NaN, which passes through as NaN. *)
Theorem confidence_cap_bounds (c : float) (dt u : string) :
  let r := _adjust_confidence_for_comparison c dt u in
  _adjust_confidence_for_comparison r dt u = r /\
  (dt = "comparison" -> _has_background_context u = false ->
     float_ltb f0_67 r = false /\
     (c <> S754_nan -> SFleb r f0_67 = true) /\
     (c = S754_nan -> r = S754_nan)).
Proof.
  cbv zeta. rewrite !adjust_confidence_spec.
  unfold _has_background_context.
  destruct (String.eqb dt "comparison" &&
            negb (any_in context_keywords (str_lower u))) eqn:E.
  - assert (Hidem : Py.min (Py.min c f0_67) f0_67 = Py.min c f0_67).
    { unfold Py.min at 2 3. destruct (float_ltb f0_67 c) eqn:El.
      - reflexivity.
      - unfold Py.min. rewrite El. reflexivity. }
    split; [exact Hidem|]. intros _ _.
    split; [apply min_cap_not_above|]. split.
    + intros Hnan. unfold Py.min. destruct (float_ltb f0_67 c) eqn:El.
      * reflexivity.
      * apply cap_compare_antisym; assumption.
    + intros ->. reflexivity.
  - split; [reflexivity|]. intros -> Hctx. rewrite Hctx in E. discriminate.
Qed.

End MoreDomainReasoning.

(** ** The keyword scans on ASCII text *)

Lemma ascii_lower_app (a b : string) :
  ascii_lower (a ++ b) = ascii_lower a ++ ascii_lower b.
Proof. induction a as [|x a IH]; simpl; [reflexivity | rewrite IH; reflexivity]. Qed.

Lemma is_ascii_app (a b : string) :
  is_ascii (a ++ b) = is_ascii a && is_ascii b.
Proof.
  induction a as [|x a IH]; simpl; [reflexivity|].
  rewrite IH, andb_assoc. reflexivity.
Qed.

Lemma is_ascii_substring (w u : string) :
  substring_of w u -> is_ascii u = true -> is_ascii w = true.
Proof.
  intros [a [b ->]]. rewrite !is_ascii_app, !andb_true_iff. tauto.
Qed.

Lemma substring_of_trans (k a b : string) :
  substring_of k a -> substring_of a b -> substring_of k b.
Proof.
  intros [x [y ->]] [x' [y' ->]]. exists (x' ++ x), (y ++ y').
  rewrite !str_app_assoc. reflexivity.
Qed.

Lemma substring_of_lower (w u : string) :
  substring_of w u -> substring_of (ascii_lower w) (ascii_lower u).
Proof.
  intros [a [b ->]]. exists (ascii_lower a), (ascii_lower b).
  rewrite !ascii_lower_app. reflexivity.
Qed.

(** A split of the lower-cased text is the image of a split of the text. *)
Lemma ascii_lower_split (u x y : string) :
  ascii_lower u = x ++ y ->
  exists x' y', u = x' ++ y' /\ ascii_lower x' = x /\ ascii_lower y' = y.
Proof.
  revert u. induction x as [|c x IH]; intros u Hu.
  - exists "", u. auto.
  - destruct u as [|c' u]; simpl in Hu; [discriminate|].
    injection Hu as Hc Hu. destruct (IH u Hu) as [x' [y' [-> [Hx Hy]]]].
    exists (String c' x'), y'. simpl. rewrite Hc, Hx. auto.
Qed.

Lemma substring_of_lower_inv (k u : string) :
  substring_of k (ascii_lower u) ->
  exists w, substring_of w u /\ ascii_lower w = k.
Proof.
  intros [a [b Hu]].
  destruct (ascii_lower_split u a (k ++ b) Hu) as [a' [r [-> [_ Hr]]]].
  destruct (ascii_lower_split r k b Hr) as [w [b' [-> [Hw _]]]].
  exists w. split; [exists a', b'; reflexivity | exact Hw].
Qed.

(** Filtering the entries of a table with distinct keys keeps the keys in
    the order of the table. *)
Lemma filter_keys_order {A : Type} (p : string * A -> bool) (l : list (string * A)) :
  NoDup (map fst l) ->
  map fst (filter p l) =
    filter (fun k => existsb (String.eqb k) (map fst (filter p l))) (map fst l).
Proof.
  induction l as [|[k a] l IH]; intros Hnd; [reflexivity|].
  inversion Hnd as [|? ? Hnotin Hnd']; subst. specialize (IH Hnd').
  assert (Hsub : forall x, In x (map fst (filter p l)) -> In x (map fst l)).
  { intros x Hx. apply in_map_iff in Hx. destruct Hx as [e [He Hin]].
    apply filter_In in Hin. apply in_map_iff. exists e. tauto. }
  cbn [filter map fst]. destruct (p (k, a)); cbn [map fst existsb filter].
  - rewrite String.eqb_refl. cbn [orb]. f_equal.
    rewrite IH at 1. apply filter_ext_in. intros x Hx.
    destruct (String.eqb x k) eqn:E; [|reflexivity].
    apply String.eqb_eq in E. subst x. contradiction.
  - assert (Hk : existsb (String.eqb k) (map fst (filter p l)) = false).
    { destruct (existsb (String.eqb k) (map fst (filter p l))) eqn:E; [|reflexivity].
      apply existsb_exists in E. destruct E as [x [Hx Hkx]].
      apply String.eqb_eq in Hkx. subst x. exfalso. apply Hnotin, Hsub, Hx. }
    rewrite Hk. exact IH.
Qed.

Section Scans.
Import domain_reasoning.
Context {B : Builtins}.

(** X6: on an ASCII [user_input] the constraint scan is a case-insensitive
    substring search: a category is reported exactly when the input
    contains one of its trigger phrases in some mix of upper and lower
    case. *)
Theorem extract_case_insensitive (u category : string) :
  is_ascii u = true ->
  (In category (_extract_explicit_constraints u) <->
   exists phrases kw w,
     In (category, phrases) explicit_keywords /\ In kw phrases /\
     substring_of w u /\ ascii_lower w = kw).
Proof.
  intros Hu. rewrite extract_In, (str_lower_ascii u Hu). split.
  - intros [phrases [Hin [kw [Hkw Hsub]]]].
    destruct (@substring_of_lower_inv _ _ Hsub) as [w [Hw Hl]].
    exists phrases, kw, w. auto.
  - intros [phrases [kw [w [Hin [Hkw [Hw Hl]]]]]].
    exists phrases. split; [exact Hin|]. exists kw. split; [exact Hkw|].
    rewrite <- Hl. apply substring_of_lower. exact Hw.
Qed.

(** X7: on ASCII text the scans only grow with the text: every constraint
    found in a query is found in any query that contains it, and a query
    that contains one with background context has background context. *)
Theorem scans_monotone (u u' : string) :
  is_ascii u' = true ->
  substring_of u u' ->
  (forall category, In category (_extract_explicit_constraints u) ->
                    In category (_extract_explicit_constraints u')) /\
  (_has_background_context u = true -> _has_background_context u' = true).
Proof.
  intros Hu' Hsub.
  pose proof (@is_ascii_substring _ _ Hsub Hu') as Hu.
  pose proof (@substring_of_lower _ _ Hsub) as Hlow.
  split.
  - intros category. rewrite !extract_In, (str_lower_ascii u Hu), (str_lower_ascii u' Hu').
    intros [phrases [Hin [kw [Hkw Hk]]]].
    exists phrases. split; [exact Hin|]. exists kw. split; [exact Hkw|].
    exact (@substring_of_trans _ _ _ Hk Hlow).
  - unfold _has_background_context.
    rewrite (str_lower_ascii u Hu), (str_lower_ascii u' Hu'), !any_in_spec.
    intros [kw [Hin Hk]]. exists kw. split; [exact Hin|].
    exact (@substring_of_trans _ _ _ Hk Hlow).
Qed.

(** X8: the phrase "urgent" belongs to two categories: a query whose
    lower-cased text contains it is tagged both "time" and "priority". *)
Theorem urgent_is_time_and_priority (u : string) :
  substring_of "urgent" (str_lower u) ->
  In "time" (_extract_explicit_constraints u) /\
  In "priority" (_extract_explicit_constraints u).
Proof.
  intros Hsub. split; apply extract_In.
  - exists ["limited time"; "short on time"; "urgent"; "deadline"; "soon"].
    split; [simpl; tauto|]. exists "urgent". split; [simpl; tauto | exact Hsub].
  - exists ["need a job"; "job priority"; "employment"; "urgent"].
    split; [simpl; tauto|]. exists "urgent". split; [simpl; tauto | exact Hsub].
Qed.

(** X9: a query that says "no experience" counts as giving background
    context, because the context scan looks for "experience": it is tagged
    "experience" and its confidence is never capped, comparison or not. *)
Theorem no_experience_is_context (u : string) :
  substring_of "no experience" (str_lower u) ->
  In "experience" (_extract_explicit_constraints u) /\
  _has_background_context u = true /\
  (forall c dt, _adjust_confidence_for_comparison c dt u = c).
Proof.
  intros Hsub.
  assert (Hctx : _has_background_context u = true).
  { unfold _has_background_context. apply any_in_spec. exists "experience".
    split; [simpl; tauto|].
    apply (@substring_of_trans _ "no experience"); [|exact Hsub].
    exists "no ", "". reflexivity. }
  split; [|split; [exact Hctx|]].
  - apply extract_In.
    exists ["beginner"; "just starting"; "no experience"; "new to"].
    split; [simpl; tauto|]. exists "no experience".
    split; [simpl; tauto | exact Hsub].
  - intros c dt. unfold _adjust_confidence_for_comparison. rewrite Hctx.
    destruct (String.eqb dt "comparison"); reflexivity.
Qed.

(** X10: the constraints come out in the fixed order time, budget,
    experience, priority, interest, skill_gap, whatever the order in which
    the query mentions them. *)
Theorem extract_in_category_order (u : string) :
  _extract_explicit_constraints u =
    filter (fun category =>
              existsb (String.eqb category) (_extract_explicit_constraints u))
      ["time"; "budget"; "experience"; "priority"; "interest"; "skill_gap"].
Proof.
  unfold _extract_explicit_constraints.
  exact (@filter_keys_order _ _ _ explicit_categories_distinct).
Qed.

End Scans.

(** ** More on the recommendation stage *)

Lemma joined_or_raises (v : pyval) (alt : string) (e : exn) :
  recommendation.joined_or v alt = Raise e -> e = TypeError.
Proof.
  unfold recommendation.joined_or. destruct (truthy v); [|discriminate].
  destruct v; simpl; try congruence.
  destruct (all_str l); congruence.
Qed.

Lemma joined_or_strings (l : list string) (alt : string) :
  recommendation.joined_or (py_or (PList (map PStr l)) (PList [])) alt =
    Ok (match l with [] => alt | _ => String.concat ", " l end).
Proof.
  destruct l as [|x l]; [reflexivity|].
  unfold recommendation.joined_or, py_or. cbn [map truthy join all_str].
  rewrite (all_str_map_PStr l). reflexivity.
Qed.

Section MoreRecommendation.
Import recommendation.
Context {B : Builtins} {K : Backend}.

(** What a returned state of the stage looks like, branch by branch. *)
Lemma run_recommendation_inv (s s' : AssistantState) (h h' : list call) :
  run_recommendation s h = (Ok s', h') ->
  exists d usr,
    s' = update_recommendations s (PDict d) /\
    ((decision_type s = PStr "comparison" /\
      h' = (_COMPARISON_SYSTEM_PROMPT, usr) :: h /\
      issubset required_keys d = true /\
      truthy (dict_get_or d "exploration_plan" PNone) = true) \/
     (decision_type s <> PStr "comparison" /\
      h' = (_DIRECT_PATH_SYSTEM_PROMPT, usr) :: h)).
Proof.
  set (goal := py_or (interpreted_goal s) (PStr (user_input s))).
  destruct (joined_or (py_or (extracted_constraints s) (PList [])) "none stated")
    as [c|e] eqn:Hc;
  [destruct (joined_or (py_or (missing_information s) (PList [])) "none")
     as [m|e] eqn:Hm|].
  - destruct (eq_str (py_or (decision_type s) (PStr "direct_path")) "comparison") eqn:E.
    + apply comparison_test in E.
      rewrite (@run_recommendation_comparison _ _ s h c m E Hc Hm). cbv zeta. fold goal.
      match goal with
      | |- (rbind ?X _, _) = _ -> _ => destruct X as [r|e0] eqn:Hchk
      end; cbn [rbind]; [|discriminate].
      intros H. injection H as <- <-.
      destruct (@checked_valid goal _ r Hchk) as [d [-> [Hsub Hplan]]].
      exists d, (comparison_block goal c m). split; [reflexivity|]. left. auto.
    + apply comparison_test_false in E.
      rewrite (@run_recommendation_direct _ _ s h c m E Hc Hm). cbv zeta. fold goal.
      match goal with
      | |- (rbind ?X _, _) = _ -> _ => destruct X as [v|e0]
      end; cbn [rbind]; [|discriminate].
      destruct v as [| | | | | |d]; cbn [get rbind]; try discriminate.
      intros H. injection H as <- <-.
      exists d, (direct_block goal c m). split; [reflexivity|]. right. auto.
  - unfold run_recommendation, _generate_comparison_recommendation,
      _generate_direct_recommendation, bind, lift.
    rewrite Hc, Hm.
    destruct (eq_str _ "comparison"); discriminate.
  - unfold run_recommendation, _generate_comparison_recommendation,
      _generate_direct_recommendation, bind, lift.
    rewrite Hc.
    destruct (eq_str _ "comparison"); discriminate.
Qed.

(** X11: whenever the recommendation stage returns a state, on either
    branch, the stored [recommendations] is a mapping and exactly one backend
    call was added; so a state with its declared field types keeps them. *)
Theorem recommendation_returns_mapping (s s' : AssistantState) (h h' : list call) :
  run_recommendation s h = (Ok s', h') ->
  (exists d, recommendations s' = PDict d) /\
  (exists sys usr, h' = (sys, usr) :: h) /\
  (valid s = true -> valid s' = true).
Proof.
  intros Hrun.
  destruct (@run_recommendation_inv s s' h h' Hrun) as [d [usr [-> Hbranch]]].
  split; [exists d; reflexivity|]. split.
  - destruct Hbranch as [[_ [-> _]] | [_ ->]]; eexists; eexists; reflexivity.
  - unfold valid.
    cbn [interpreted_goal extracted_constraints missing_information confidence_score
         decision_type recommendations final_response update_recommendations opt_dict].
    rewrite !andb_true_iff. tauto.
Qed.

(** X12: when [extracted_constraints] or [missing_information] holds a
    non-empty value that [str.join] rejects (a number, [True], a list with
    an element that is not a string), the stage raises [TypeError] before
    any backend call, on either branch. *)
Theorem recommendation_join_error (s : AssistantState) (h : list call) :
  (truthy (extracted_constraints s) = true /\
   join ", " (extracted_constraints s) = Raise TypeError) \/
  (truthy (missing_information s) = true /\
   join ", " (missing_information s) = Raise TypeError) ->
  run_recommendation s h = (Raise TypeError, h).
Proof.
  intros Hbad.
  assert (Hout :
    exists e,
      joined_or (py_or (extracted_constraints s) (PList [])) "none stated" = Raise e \/
      (exists c,
         joined_or (py_or (extracted_constraints s) (PList [])) "none stated" = Ok c /\
         joined_or (py_or (missing_information s) (PList [])) "none" = Raise e)).
  { destruct Hbad as [[Ht Hj] | [Ht Hj]].
    - exists TypeError. left. unfold joined_or, py_or. rewrite Ht, Ht. exact Hj.
    - destruct (joined_or (py_or (extracted_constraints s) (PList [])) "none stated")
        as [c|e] eqn:Hc.
      + exists TypeError. right. exists c. split; [reflexivity|].
        unfold joined_or, py_or. rewrite Ht, Ht. exact Hj.
      + exists e. left. reflexivity. }
  destruct Hout as [e [Hc | [c [Hc Hm]]]].
  - pose proof (joined_or_raises _ _ Hc) as ->.
    unfold run_recommendation, _generate_comparison_recommendation,
      _generate_direct_recommendation, bind, lift.
    rewrite Hc. destruct (eq_str _ "comparison"); reflexivity.
  - pose proof (joined_or_raises _ _ Hm) as ->.
    unfold run_recommendation, _generate_comparison_recommendation,
      _generate_direct_recommendation, bind, lift.
    rewrite Hc, Hm. destruct (eq_str _ "comparison"); reflexivity.
Qed.

(** X13: for list fields that are lists of strings, the one backend call of
    the stage carries the goal ([interpreted_goal], or [user_input] when
    that is [None] or empty), the constraints joined by ", " or "none
    stated" when there are none, and the missing information joined by
    ", " or "none"; the labels and the system prompt are those of the
    branch. *)
Theorem recommendation_prompt (s : AssistantState) (h : list call)
    (cs ms : list string) :
  extracted_constraints s = PList (map PStr cs) ->
  missing_information s = PList (map PStr ms) ->
  let goal := fmt (py_or (interpreted_goal s) (PStr (user_input s))) in
  let constraints := match cs with [] => "none stated" | _ => String.concat ", " cs end in
  let missing := match ms with [] => "none" | _ => String.concat ", " ms end in
  (decision_type s = PStr "comparison" ->
   snd (run_recommendation s h) =
     (_COMPARISON_SYSTEM_PROMPT,
      "Student goal: " ++ goal ++ nl ++
      "Explicit constraints: " ++ constraints ++ nl ++
      "Missing information: " ++ missing) :: h) /\
  (decision_type s <> PStr "comparison" ->
   snd (run_recommendation s h) =
     (_DIRECT_PATH_SYSTEM_PROMPT,
      "Student goal: " ++ goal ++ nl ++
      "Constraints / preferences: " ++ constraints ++ nl ++
      "Note — information not available: " ++ missing) :: h) /\
  (interpreted_goal s = PNone \/ interpreted_goal s = PStr "" ->
   goal = user_input s).
Proof.
  intros Hcs Hms goal constraints missing.
  pose proof (joined_or_strings cs "none stated") as Hc.
  pose proof (joined_or_strings ms "none") as Hm.
  rewrite <- Hcs in Hc. rewrite <- Hms in Hm.
  split; [|split].
  - intros E.
    rewrite (@run_recommendation_comparison _ _ s h _ _ E Hc Hm). reflexivity.
  - intros E.
    rewrite (@run_recommendation_direct _ _ s h _ _ E Hc Hm). reflexivity.
  - subst goal. intros [-> | ->]; reflexivity.
Qed.

End MoreRecommendation.

(** ** More on the coordinator and on the stages in a row *)

Section MoreCoordinator.
Import domain_reasoning recommendation coordinator.
Context {B : Builtins} {K : Backend}.

(** The comparison branch on a mapping, step by step. *)
Lemma compile_comparison_steps (s : AssistantState) (h : list call)
    (d : list (string * pyval)) :
  decision_type s = PStr "comparison" ->
  py_or (recommendations s) (PDict []) = PDict d ->
  let plan := dict_get_or d "exploration_plan" (PList []) in
  let criteria := dict_get_or d "decision_criteria" (PList []) in
  let suggestion := dict_get_or d "final_suggestion" (PStr "") in
  compile_response s h =
    (rbind (len plan) (fun n =>
     rbind (if (2 <=? n)%nat
            then rbind (week_block plan) (fun w => Ok (intro ++ w))
            else Ok intro) (fun final =>
     rbind (slice_to 3 criteria) (fun shown =>
     let final :=
       bullets (final ++ "After completing both phases, reflect on:" ++ nl) shown in
     Ok (update_final_response s
           (PStr (if truthy suggestion then final ++ nl ++ fmt suggestion
                  else final)))))),
     h).
Proof.
  intros Hdt Hd plan criteria suggestion. unfold compile_response.
  rewrite (proj2 (comparison_test (decision_type s)) Hdt), Hd.
  unfold bind, lift, ret. cbn [get]. fold plan criteria suggestion.
  destruct (len plan) as [n|e]; [|reflexivity]. cbn [rbind].
  destruct (if (2 <=? n)%nat then _ else _) as [final|e]; [|reflexivity].
  cbn [rbind]. destruct (slice_to 3 criteria); reflexivity.
Qed.

Lemma week_block_first_two (pl : list pyval) :
  (2 <= List.length pl)%nat ->
  week_block (PList pl) = week_block (PList (firstn 2 pl)).
Proof.
  destruct pl as [|p0 [|p1 rest]]; simpl; try lia. reflexivity.
Qed.

Lemma compile_response_inv (s s' : AssistantState) (h h' : list call) :
  compile_response s h = (Ok s', h') ->
  exists text,
    s' = update_final_response s (PStr text) /\
    ((decision_type s = PStr "comparison" /\ h' = h) \/
     (decision_type s <> PStr "comparison" /\
      exists prompt,
        h' = ("You are a helpful student planning assistant.", prompt) :: h)).
Proof.
  destruct (eq_str (py_or (decision_type s) (PStr "direct_path")) "comparison") eqn:E.
  - apply comparison_test in E. unfold compile_response.
    rewrite (proj2 (comparison_test (decision_type s)) E).
    unfold bind, lift, ret.
    repeat match goal with
           | |- context [match ?x with _ => _ end] => destruct x
           end; intros H; inversion H; subst;
      eexists; (split; [reflexivity|]); left; auto.
  - apply comparison_test_false in E.
    destruct (@compile_direct_call _ _ s h E) as [prompt Hrun].
    rewrite Hrun. intros H. injection H as <- <-.
    eexists. split; [reflexivity|]. right. split; [exact E|].
    exists prompt. reflexivity.
Qed.

(** X14: the fallback plan of the recommendation stage always renders: for
    a comparison state holding it the coordinator returns, without a
    backend call, the introduction, the two fixed week blocks, the three
    fixed questions and the fixed closing sentence. *)
Theorem fallback_plan_renders (s : AssistantState) (h : list call) (goal : pyval) :
  decision_type s = PStr "comparison" ->
  recommendations s = _comparison_fallback goal ->
  compile_response s h =
    (Ok (update_final_response s
           (PStr ("This is a comparison decision. Instead of prematurely selecting one path, I recommend a structured two-week exploration plan:" ++ nl ++ nl ++
                  "**Week 1 — Backend Development**" ++ nl ++
                  "- Build a small REST API using FastAPI with authentication and database integration." ++ nl ++ nl ++
                  "**Week 2 — Machine Learning**" ++ nl ++
                  "- Build a small end-to-end ML classification project and expose it via a simple API." ++ nl ++ nl ++
                  "After completing both phases, reflect on:" ++ nl ++
                  "- Which work felt more engaging?" ++ nl ++
                  "- Which learning curve felt sustainable?" ++ nl ++
                  "- Which type of problem-solving excited you more?" ++ nl ++
                  nl ++ "Choose the path that maintains your long-term curiosity after hands-on exploration."))),
     h).
Proof.
  intros Hdt Hrecs.
  rewrite (@compile_comparison_steps s h _ Hdt
             ltac:(rewrite Hrecs; reflexivity)).
  reflexivity.
Qed.

(** X15: the response of the comparison branch reads the first two plan
    entries and the first three criteria only: two comparison states whose
    plans agree on their first two entries, whose criteria agree on their
    first three and whose suggestions are equal get the same text, or fail
    with the same exception. *)
Theorem response_ignores_tails (s1 s2 : AssistantState) (h : list call)
    (d1 d2 : list (string * pyval)) (pl1 pl2 cl1 cl2 : list pyval) :
  decision_type s1 = PStr "comparison" ->
  decision_type s2 = PStr "comparison" ->
  py_or (recommendations s1) (PDict []) = PDict d1 ->
  py_or (recommendations s2) (PDict []) = PDict d2 ->
  dict_get_or d1 "exploration_plan" (PList []) = PList pl1 ->
  dict_get_or d2 "exploration_plan" (PList []) = PList pl2 ->
  dict_get_or d1 "decision_criteria" (PList []) = PList cl1 ->
  dict_get_or d2 "decision_criteria" (PList []) = PList cl2 ->
  firstn 2 pl1 = firstn 2 pl2 ->
  firstn 3 cl1 = firstn 3 cl2 ->
  dict_get_or d1 "final_suggestion" (PStr "") =
    dict_get_or d2 "final_suggestion" (PStr "") ->
  rbind (fst (compile_response s1 h)) (fun t => Ok (final_response t)) =
  rbind (fst (compile_response s2 h)) (fun t => Ok (final_response t)).
Proof.
  intros Hdt1 Hdt2 Hd1 Hd2 Hp1 Hp2 Hc1 Hc2 Hplan Hcrit Hsg.
  rewrite (@compile_comparison_steps s1 h d1 Hdt1 Hd1).
  rewrite (@compile_comparison_steps s2 h d2 Hdt2 Hd2).
  cbv zeta. rewrite Hp1, Hp2, Hc1, Hc2, Hsg. cbn [fst len slice_to rbind].
  rewrite Hcrit.
  assert (Hfirst : forall pl,
    (if (2 <=? List.length pl)%nat
     then rbind (week_block (PList pl)) (fun w => Ok (intro ++ w))
     else Ok intro) =
    (if (2 <=? List.length (firstn 2 pl))%nat
     then rbind (week_block (PList (firstn 2 pl))) (fun w => Ok (intro ++ w))
     else Ok intro)).
  { intros pl. destruct pl as [|p0 [|p1 rest]]; reflexivity. }
  assert (Hweeks :
    (if (2 <=? List.length pl1)%nat
     then rbind (week_block (PList pl1)) (fun w => Ok (intro ++ w))
     else Ok intro) =
    (if (2 <=? List.length pl2)%nat
     then rbind (week_block (PList pl2)) (fun w => Ok (intro ++ w))
     else Ok intro)).
  { rewrite (Hfirst pl1), (Hfirst pl2), Hplan. reflexivity. }
  rewrite Hweeks.
  destruct (if (2 <=? List.length pl2)%nat then _ else _); reflexivity.
Qed.

(** X16: how the comparison branch fails, always without a backend call:
    [recommendations] that is not empty and not a mapping, and a plan with
    two entries or more whose first entry is not a mapping, raise
    [AttributeError]; an [exploration_plan] that is null, a number or a
    boolean raises [TypeError]; a plan that is itself a mapping with two
    keys or more raises [KeyError]; with a plan of fewer than two list
    entries, criteria that are null, a number or a boolean raise
    [TypeError]. *)
Theorem comparison_response_errors (s : AssistantState) (h : list call) :
  decision_type s = PStr "comparison" ->
  (truthy (recommendations s) = true -> isinstance_dict (recommendations s) = false ->
     compile_response s h = (Raise AttributeError, h)) /\
  (forall d plan, py_or (recommendations s) (PDict []) = PDict d ->
     dict_get d "exploration_plan" = Some plan ->
     (plan = PNone \/ (exists z, plan = PInt z) \/ (exists f, plan = PFloat f) \/
      (exists b, plan = PBool b)) ->
     compile_response s h = (Raise TypeError, h)) /\
  (forall d p0 rest, py_or (recommendations s) (PDict []) = PDict d ->
     dict_get d "exploration_plan" = Some (PList (p0 :: rest)) ->
     rest <> [] -> isinstance_dict p0 = false ->
     compile_response s h = (Raise AttributeError, h)) /\
  (forall d k0 k1 rest, py_or (recommendations s) (PDict []) = PDict d ->
     dict_get d "exploration_plan" = Some (PDict (k0 :: k1 :: rest)) ->
     compile_response s h = (Raise KeyError, h)) /\
  (forall d pl criteria, py_or (recommendations s) (PDict []) = PDict d ->
     dict_get_or d "exploration_plan" (PList []) = PList pl ->
     (List.length pl < 2)%nat ->
     dict_get d "decision_criteria" = Some criteria ->
     (criteria = PNone \/ (exists z, criteria = PInt z) \/
      (exists f, criteria = PFloat f) \/ (exists b, criteria = PBool b)) ->
     compile_response s h = (Raise TypeError, h)).
Proof.
  intros Hdt. split; [|split; [|split; [|split]]].
  - intros Ht Hnd. unfold compile_response.
    rewrite (proj2 (comparison_test (decision_type s)) Hdt).
    unfold py_or at 1. rewrite Ht. unfold bind, lift.
    destruct (recommendations s); try reflexivity. discriminate.
  - intros d plan Hd Hplan Hkind.
    rewrite (@compile_comparison_steps s h d Hdt Hd). cbv zeta.
    unfold dict_get_or at 1. rewrite Hplan.
    destruct Hkind as [-> | [[z ->] | [[f ->] | [b ->]]]]; reflexivity.
  - intros d p0 rest Hd Hplan Hrest Hp0.
    rewrite (@compile_comparison_steps s h d Hdt Hd). cbv zeta.
    unfold dict_get_or at 1 2 3. rewrite Hplan.
    destruct rest as [|p1 rest]; [congruence|].
    destruct p0; try discriminate; reflexivity.
  - intros d k0 k1 rest Hd Hplan.
    rewrite (@compile_comparison_steps s h d Hdt Hd). cbv zeta.
    unfold dict_get_or at 1 2 3. rewrite Hplan. reflexivity.
  - intros d pl criteria Hd Hpl Hlen Hcrit Hkind.
    rewrite (@compile_comparison_steps s h d Hdt Hd). cbv zeta.
    rewrite Hpl. cbn [len rbind].
    assert (E : (2 <=? List.length pl)%nat = false) by (apply Nat.leb_gt; exact Hlen).
  rewrite E.
    cbn [rbind]. unfold dict_get_or at 1. rewrite Hcrit.
    destruct Hkind as [-> | [[z ->] | [[f ->] | [b ->]]]]; reflexivity.
Qed.

Lemma lines_of_strings (l : list string) :
  fold_right (fun c rest => "- " ++ fmt c ++ nl ++ rest) "" (map PStr l) =
  fold_right (fun c rest => "- " ++ c ++ nl ++ rest) "" l.
Proof.
  induction l as [|c l IH]; cbn [fold_right map fmt]; [reflexivity|].
  rewrite IH. reflexivity.
Qed.

(** X17: a [decision_criteria] that is a string is rendered one character
    per bullet, three at most. *)
Theorem string_criteria_by_character (s : AssistantState) (h : list call)
    (d : list (string * pyval)) (pl : list pyval) (text : string) :
  decision_type s = PStr "comparison" ->
  py_or (recommendations s) (PDict []) = PDict d ->
  dict_get_or d "exploration_plan" (PList []) = PList pl ->
  (List.length pl < 2)%nat ->
  dict_get d "decision_criteria" = Some (PStr text) ->
  dict_get d "final_suggestion" = None ->
  compile_response s h =
    (Ok (update_final_response s
           (PStr ("This is a comparison decision. Instead of prematurely selecting one path, I recommend a structured two-week exploration plan:" ++ nl ++ nl ++
                  "After completing both phases, reflect on:" ++ nl ++
                  fold_right (fun c rest => "- " ++ c ++ nl ++ rest) ""
                    (firstn 3 (chars text))))),
     h).
Proof.
  intros Hdt Hd Hpl Hlen Hcrit Hsg.
  rewrite (@compile_comparison_steps s h d Hdt Hd). cbv zeta.
  rewrite Hpl. cbn [len rbind].
  assert (E : (2 <=? List.length pl)%nat = false) by (apply Nat.leb_gt; exact Hlen).
  rewrite E.
  cbn [rbind]. unfold dict_get_or. rewrite Hcrit, Hsg. cbn [slice_to rbind truthy].
  rewrite bullets_lines, lines_of_strings. unfold intro.
  rewrite !str_app_assoc. reflexivity.
Qed.

(** X18: on the direct path the coordinator cannot fail: whatever
    [recommendations] holds, it calls the backend once and stores the
    stripped completion. *)
Theorem direct_response_returns (s : AssistantState) (h : list call) :
  decision_type s <> PStr "comparison" ->
  exists prompt,
    compile_response s h =
      (Ok (update_final_response s
             (PStr (str_strip
                      (complete h "You are a helpful student planning assistant." prompt)))),
       ("You are a helpful student planning assistant.", prompt) :: h) /\
    exists rest,
      prompt =
        "You are a friendly student career advisor." ++ nl ++
        "The student's goal: " ++
        fmt (py_or (interpreted_goal s) (PStr (user_input s))) ++ nl ++
        "Structured recommendations:" ++ nl ++
        fmt (py_or (recommendations s) (PDict [])) ++ rest.
Proof.
  intros Hdt. unfold compile_response.
  rewrite (proj2 (comparison_test_false (decision_type s)) Hdt).
  eexists. split; [reflexivity|]. eexists. reflexivity.
Qed.

(** X19: the three stages applied in the order of the graph.  When each
    returns, the final state holds a mapping as [recommendations] and a
    string as [final_response]; a comparison costs two backend calls (domain
    prompt, comparison prompt) and a direct path three (domain prompt,
    direct-path prompt, coordinator prompt). *)
Theorem stages_in_a_row (s0 s1 s2 s3 : AssistantState) (h0 h1 h2 h3 : list call) :
  run_domain_reasoning s0 h0 = (Ok s1, h1) ->
  run_recommendation s1 h1 = (Ok s2, h2) ->
  compile_response s2 h2 = (Ok s3, h3) ->
  (exists d, recommendations s3 = PDict d) /\
  (exists text, final_response s3 = PStr text) /\
  user_input s3 = user_input s0 /\
  ((decision_type s3 = PStr "comparison" /\
    exists usr,
      h3 = (_COMPARISON_SYSTEM_PROMPT, usr) ::
           (_SYSTEM_PROMPT, user_input s0) :: h0) \/
   (decision_type s3 = PStr "direct_path" /\
    exists usr prompt,
      h3 = ("You are a helpful student planning assistant.", prompt) ::
           (_DIRECT_PATH_SYSTEM_PROMPT, usr) ::
           (_SYSTEM_PROMPT, user_input s0) :: h0)).
Proof.
  intros H1 H2 H3.
  pose proof (@run_domain_reasoning_log _ _ s0 h0) as Hlog1.
  rewrite H1 in Hlog1. simpl in Hlog1. subst h1.
  destruct (@run_domain_reasoning_decision _ _ _ _ _ _ H1) as [Hu1 Hdt1].
  destruct (@run_recommendation_inv _ _ _ _ _ _ H2) as [d [usr [-> Hb2]]].
  destruct (@compile_response_inv _ _ _ _ H3) as [text [-> Hb3]].
  cbn [recommendations final_response user_input decision_type
       update_recommendations update_final_response] in *.
  split; [exists d; reflexivity|]. split; [exists text; reflexivity|].
  split; [exact Hu1|].
  destruct Hb2 as [[Hc [-> _]] | [Hn ->]]; destruct Hb3 as [[Hc' ->] | [Hn' [prompt ->]]];
    try contradiction.
  - left. split; [exact Hc|]. exists usr. reflexivity.
  - right. split; [destruct Hdt1; [contradiction | assumption]|].
    exists usr, prompt. reflexivity.
Qed.

End MoreCoordinator.

(** ** The command line *)

Section Cli.
Context {B : Builtins}.

(** X20: [main] never runs the assistant on an empty query: a non-empty
    [--query] is passed on as it is, unstripped; without one, or with an
    empty one, the typed line is stripped and replaced by the default query
    when nothing is left. *)
Theorem main_query_nonempty (arg : option string) (typed : string) :
  main.query arg typed <> "" /\
  (forall q, arg = Some q -> q <> "" -> main.query arg typed = q) /\
  (arg = None \/ arg = Some "" ->
   main.query arg typed =
     if String.eqb (str_strip typed) "" then main.default_query else str_strip typed).
Proof.
  unfold main.query.
  destruct (str_strip typed) as [|c t] eqn:E; (split; [|split]).
  - destruct arg as [[|c' q]|]; simpl; discriminate.
  - intros q -> Hq. destruct q; [congruence | reflexivity].
  - intros [-> | ->]; reflexivity.
  - destruct arg as [[|c' q]|]; simpl; discriminate.
  - intros q -> Hq. destruct q; [congruence | reflexivity].
  - intros [-> | ->]; reflexivity.
Qed.

End Cli.

(** ** Further concrete runs *)

Section MoreRuns.
Import Examples MoreExamples domain_reasoning recommendation coordinator.

Lemma domain_parse_fallback_run :
  exists s',
    @run_domain_reasoning builtins (scripted [prose_text]) (initial beginner_query) [] =
      (Ok s', [(_SYSTEM_PROMPT, beginner_query)]) /\
    interpreted_goal s' = PStr "Unable to parse student goal." /\
    extracted_constraints s' = PList [PStr "time"; PStr "experience"] /\
    confidence_score s' = PFloat f0_3 /\
    decision_type s' = PStr "direct_path".
Proof.
  destruct (@domain_parse_fallback builtins (scripted [prose_text])
              (initial beginner_query) [] ltac:(vm_compute; reflexivity))
    as [s' [Hrun [Hg [Hc [_ [Hf Hd]]]]]].
  exists s'. split; [exact Hrun|]. split; [exact Hg|]. split; [exact Hc|].
  split; [exact Hf | exact Hd].
Defined.

Lemma domain_stage_outcome_run :
  fst (@run_domain_reasoning builtins (scripted [array_text]) (initial ml_or_backend) []) =
    Raise AttributeError.
Proof.
  destruct (@domain_stage_outcome builtins (scripted [array_text])
              (initial ml_or_backend) []) as [_ [_ [Hnd _]]].
  exact (Hnd (PList [PInt 1; PInt 2]) ltac:(vm_compute; reflexivity) eq_refl).
Defined.

Lemma domain_missing_keys_run :
  exists s',
    @run_domain_reasoning builtins (scripted [partial_text]) (initial ml_or_backend) [] =
      (Ok s', log1) /\
    interpreted_goal s' = PNone /\
    confidence_score s' = PFloat f0_5 /\
    decision_type s' = PStr "direct_path".
Proof.
  destruct (@domain_missing_keys builtins (scripted [partial_text])
              (initial ml_or_backend) [] [("primary_path", PStr "Backend engineering")]
              eq_refl eq_refl eq_refl) as [s' [Hrun [Hg [Hc [Hd _]]]]].
  exists s'. auto.
Defined.

Lemma domain_output_types_run :
  opt_str (interpreted_goal comparison_state) = true /\
  opt_list_str (extracted_constraints comparison_state) = true /\
  valid comparison_state = true.
Proof.
  assert (Hrun : @run_domain_reasoning builtins (scripted [versus_text])
                   (initial ml_or_backend) [] = (Ok comparison_state, log1))
    by (vm_compute; reflexivity).
  destruct (@domain_output_types builtins (scripted [versus_text]) _ _ _ _ Hrun)
    as [Hg [Hc [_ [_ Hv]]]].
  split; [exact Hg|]. split; [exact Hc|]. rewrite Hv. reflexivity.
Defined.

Lemma confidence_cap_bounds_run :
  @_adjust_confidence_for_comparison builtins f0_95 "comparison" ml_or_backend = f0_67 /\
  SFleb (@_adjust_confidence_for_comparison builtins f0_95 "comparison" ml_or_backend)
    f0_67 = true.
Proof.
  destruct (@confidence_cap_bounds builtins f0_95 "comparison" ml_or_backend)
    as [_ Hcap].
  destruct (Hcap eq_refl eq_refl) as [_ [Hle _]].
  split; [reflexivity|]. apply Hle. discriminate.
Defined.

Lemma extract_case_insensitive_run :
  In "time" (@_extract_explicit_constraints builtins "My DEADLINE is Friday").
Proof.
  apply (@extract_case_insensitive builtins "My DEADLINE is Friday" "time" eq_refl).
  exists ["limited time"; "short on time"; "urgent"; "deadline"; "soon"],
         "deadline", "DEADLINE".
  split; [simpl; tauto|]. split; [simpl; tauto|].
  split; [exists "My ", " is Friday"; reflexivity | reflexivity].
Defined.

Lemma scans_monotone_run :
  In "time" (@_extract_explicit_constraints builtins beginner_query).
Proof.
  assert (Hsub : substring_of "limited time" beginner_query)
    by (exists "I'm a beginner and I have ", ""; reflexivity).
  destruct (@scans_monotone builtins "limited time" beginner_query eq_refl Hsub)
    as [Hincl _].
  apply Hincl. vm_compute. tauto.
Defined.

Lemma urgent_is_time_and_priority_run :
  In "time" (@_extract_explicit_constraints builtins "This is URGENT") /\
  In "priority" (@_extract_explicit_constraints builtins "This is URGENT").
Proof.
  apply (@urgent_is_time_and_priority builtins "This is URGENT").
  exists "this is ", "". reflexivity.
Defined.

Lemma no_experience_is_context_run :
  @_adjust_confidence_for_comparison builtins f0_95 "comparison"
    "I have no experience. ML or backend?" = f0_95.
Proof.
  destruct (@no_experience_is_context builtins "I have no experience. ML or backend?")
    as [_ [_ Hkeep]].
  - exists "i have ", ". ml or backend?". reflexivity.
  - apply Hkeep.
Defined.

Lemma recommendation_returns_mapping_run :
  exists d, recommendations bare_state = PDict d.
Proof.
  pose (K := scripted [versus_text; bare_plan_text]).
  assert (Hrun : @run_recommendation builtins K comparison_state log1 =
                 (Ok bare_state, log2)) by (vm_compute; reflexivity).
  destruct (@recommendation_returns_mapping builtins K _ _ _ _ Hrun) as [Hd _].
  exact Hd.
Defined.

Lemma recommendation_join_error_run :
  @run_recommendation builtins (scripted []) number_missing_state log1 =
    (Raise TypeError, log1).
Proof.
  apply (@recommendation_join_error builtins (scripted []) number_missing_state log1).
  right. split; reflexivity.
Defined.

Lemma recommendation_prompt_run :
  snd (@run_recommendation builtins (scripted []) comparison_state log1) =
    (_COMPARISON_SYSTEM_PROMPT,
     "Student goal: Decide whether ML or backend is the better focus" ++ nl ++
     "Explicit constraints: none stated" ++ nl ++
     "Missing information: year of study") :: log1.
Proof.
  destruct (@recommendation_prompt builtins (scripted []) comparison_state log1
              [] ["year of study"] eq_refl eq_refl) as [Hcmp _].
  exact (Hcmp eq_refl).
Defined.

Lemma fallback_plan_renders_run :
  @compile_response builtins (scripted []) fallback_state log1 =
    (Ok (update_final_response fallback_state (PStr fallback_response)), log1).
Proof.
  exact (@fallback_plan_renders builtins (scripted []) fallback_state log1
           (PStr "Decide whether ML or backend is the better focus")
           eq_refl eq_refl).
Defined.

Lemma response_ignores_tails_run :
  rbind (fst (@compile_response builtins (scripted []) long_state []))
        (fun t => Ok (final_response t)) = Ok (PStr bare_response).
Proof.
  rewrite <- (@response_ignores_tails builtins (scripted []) bare_state long_state []
                _ _ _ _ _ _
                eq_refl eq_refl eq_refl eq_refl eq_refl eq_refl eq_refl eq_refl
                eq_refl eq_refl eq_refl).
  vm_compute. reflexivity.
Defined.

Lemma comparison_response_errors_run :
  @compile_response builtins (scripted []) flat_state log1 = (Raise AttributeError, log1).
Proof.
  destruct (@comparison_response_errors builtins (scripted []) flat_state log1 eq_refl)
    as [_ [_ [Hentry _]]].
  apply (Hentry _ (PStr "Week 1: backend") [PStr "Week 2: ML"] eq_refl eq_refl).
  - discriminate.
  - reflexivity.
Defined.

Lemma string_criteria_by_character_run :
  @compile_response builtins (scripted []) string_criteria_state log1 =
    (Ok (update_final_response string_criteria_state
           (PStr ("This is a comparison decision. Instead of prematurely selecting one path, I recommend a structured two-week exploration plan:" ++ nl ++ nl ++
                  "After completing both phases, reflect on:" ++ nl ++
                  "- f" ++ nl ++ "- u" ++ nl ++ "- n" ++ nl))),
     log1).
Proof.
  exact (@string_criteria_by_character builtins (scripted []) string_criteria_state log1
           string_criteria_dict [PDict [("week", PInt 1)]] "fun?"
           eq_refl eq_refl eq_refl ltac:(simpl; lia) eq_refl eq_refl).
Defined.

Lemma direct_response_returns_run :
  exists prompt,
    @compile_response builtins (scripted [choosing_text; partial_text; "Go for it."])
      (update_recommendations direct_state partial_value)
      [("", ""); ("", "")] =
      (Ok (update_final_response (update_recommendations direct_state partial_value)
             (PStr "Go for it.")),
       ("You are a helpful student planning assistant.", prompt) :: [("", ""); ("", "")]).
Proof.
  destruct (@direct_response_returns builtins
              (scripted [choosing_text; partial_text; "Go for it."])
              (update_recommendations direct_state partial_value)
              [("", ""); ("", "")] ltac:(discriminate)) as [prompt [Hrun _]].
  exists prompt. exact Hrun.
Defined.

Lemma stages_in_a_row_run :
  (exists text, final_response bare_final = PStr text) /\
  exists usr, log2 = (_COMPARISON_SYSTEM_PROMPT, usr) :: [(_SYSTEM_PROMPT, ml_or_backend)].
Proof.
  pose (K := scripted [versus_text; bare_plan_text]).
  assert (Ha : @run_domain_reasoning builtins K (initial ml_or_backend) [] =
               (Ok comparison_state, log1)) by (vm_compute; reflexivity).
  assert (Hb : @run_recommendation builtins K comparison_state log1 =
               (Ok bare_state, log2)) by (vm_compute; reflexivity).
  assert (Hc : @compile_response builtins K bare_state log2 = (Ok bare_final, log2))
    by (vm_compute; reflexivity).
  destruct (@stages_in_a_row builtins K _ _ _ _ _ _ _ _ Ha Hb Hc)
    as [_ [Ht [_ [[_ Hlog] | [Hd _]]]]].
  - split; [exact Ht | exact Hlog].
  - discriminate Hd.
Defined.

Lemma main_query_nonempty_run :
  @main.query builtins (Some "") "ML or backend?" = "ML or backend?".
Proof.
  destruct (@main_query_nonempty builtins (Some "") "ML or backend?") as [_ [_ H]].
  rewrite H; [reflexivity | right; reflexivity].
Defined.

End MoreRuns.
